(** * ai-pr-reviewer: chunking, response parsing and report rendering

    A shallow embedding of the pure parts of the pipeline
    (src/utils/filters.py, src/core/chunker.py, src/core/reviewer.py and
    src/core/responder.py) together with the properties stated about them,
    followed by the configuration getters (src/utils/config.py), the
    fetcher (src/core/fetcher.py) and the entry point (src/main.py), whose
    collaborators are oracles over the same [world].

    Conventions.
    - A Python [str] is a Rocq [string]; a character is a code point below
      256.  Whitespace and lower-casing follow Python on that range.
    - A dict with a fixed set of keys is a record of options ([None] when
      the key is absent); a Python list is a [list].
    - Logging is not modelled: it has no influence on any returned value.
    - A call that may raise returns an [outcome]; the completion endpoint
      is an oracle threading an abstract [world].
    - The pictographs of the report headings lie outside that range and
      are written as their UTF-8 bytes; nothing depends on their shape. *)

From Stdlib Require Import Bool Arith ZArith Lia List Ascii String.
From Stdlib Require Import DecimalString.
Import ListNotations.
Open Scope string_scope.

(** ** Python string primitives *)

Module PyStr.

Definition nl : ascii := "010"%char.
(** The one-character string holding a line feed. *)
Definition NL : string := String nl EmptyString.

(** [s.startswith(p)] *)
Fixpoint startswith (p s : string) : bool :=
  match p, s with
  | EmptyString, _ => true
  | String a p', String b s' => Ascii.eqb a b && startswith p' s'
  | String _ _, EmptyString => false
  end.

(** [s.split(sep)] for a one-character separator: never the empty list. *)
Fixpoint split (sep : ascii) (s : string) : list string :=
  match s with
  | EmptyString => [EmptyString]
  | String c r =>
      if Ascii.eqb c sep then EmptyString :: split sep r
      else match split sep r with
           | [] => [String c EmptyString]
           | h :: t => String c h :: t
           end
  end.

(** [sep.join(l)] *)
Fixpoint join (sep : string) (l : list string) : string :=
  match l with
  | [] => EmptyString
  | [x] => x
  | x :: (_ :: _) as t => x ++ sep ++ join sep t
  end.

(** Membership of a character in the argument of [strip(chars)]. *)
Fixpoint in_chars (chars : string) (c : ascii) : bool :=
  match chars with
  | EmptyString => false
  | String a r => Ascii.eqb a c || in_chars r c
  end.

(** [str.isspace] on one character below 256: TAB..CR, FS..US, space,
    NEL and NBSP. *)
Definition isspace (c : ascii) : bool :=
  let n := nat_of_ascii c in
  ((9 <=? n)%nat && (n <=? 13)%nat) || ((28 <=? n)%nat && (n <=? 32)%nat)
  || (n =? 133)%nat || (n =? 160)%nat.

Fixpoint lstrip_by (p : ascii -> bool) (s : string) : string :=
  match s with
  | EmptyString => EmptyString
  | String c r => if p c then lstrip_by p r else s
  end.

Fixpoint rstrip_by (p : ascii -> bool) (s : string) : string :=
  match s with
  | EmptyString => EmptyString
  | String c r =>
      match rstrip_by p r with
      | EmptyString => if p c then EmptyString else String c EmptyString
      | r' => String c r'
      end
  end.

Definition strip_by (p : ascii -> bool) (s : string) : string :=
  rstrip_by p (lstrip_by p s).

(** [s.strip()] *)
Definition strip (s : string) : string := strip_by isspace s.
(** [s.strip(chars)] *)
Definition strip_chars (chars s : string) : string :=
  strip_by (in_chars chars) s.
(** [s.rstrip(chars)] *)
Definition rstrip_chars (chars s : string) : string :=
  rstrip_by (in_chars chars) s.

(** [s.lower()] on code points below 256: A-Z and the Latin-1 capitals
    (192..222 except the multiplication sign 215) move up by 32. *)
Definition lower_char (c : ascii) : ascii :=
  let n := nat_of_ascii c in
  if ((65 <=? n)%nat && (n <=? 90)%nat)
     || ((192 <=? n)%nat && (n <=? 222)%nat && negb (n =? 215)%nat)
  then ascii_of_nat (n + 32) else c.

Fixpoint lower (s : string) : string :=
  match s with
  | EmptyString => EmptyString
  | String c r => String (lower_char c) (lower r)
  end.

(** Truth value of a string and of a list. *)
Definition truthy (s : string) : bool :=
  match s with EmptyString => false | _ => true end.

Definition nonempty {A} (l : list A) : bool :=
  match l with [] => false | _ => true end.

(** [s.rfind(c)]: index of the last occurrence; [None] stands for -1. *)
Fixpoint rfind (c : ascii) (s : string) : option nat :=
  match s with
  | EmptyString => None
  | String a r =>
      match rfind c r with
      | Some i => Some (S i)
      | None => if Ascii.eqb a c then Some 0 else None
      end
  end.

(** [s[i:]] *)
Fixpoint drop (i : nat) (s : string) : string :=
  match i, s with
  | 0, _ => s
  | S i', String _ r => drop i' r
  | S _, EmptyString => EmptyString
  end.

(** [str(n)] for an int. *)
Definition str_of_int (z : Z) : string :=
  NilZero.string_of_int (Z.to_int z).

(** An exception is represented by its text, [str(e)]. *)
Inductive outcome (A : Type) : Type :=
| Returns (a : A)
| Raises (e : string).
Arguments Returns {A} a.
Arguments Raises {A} e.

End PyStr.
Import PyStr.

(** ** pathlib: the pure POSIX path operations used by the filters

    [PurePosixPath] as in CPython 3.11 and 3.12. *)

Module PurePath.

(** [posixpath.splitroot]: the root (empty, one slash, or exactly two)
    and the rest of the path. *)
Definition splitroot (p : string) : string * string :=
  match p with
  | String "/" (String "/" (String "/" _)) => ("/", drop 1 p)
  | String "/" (String "/" rel) => ("//", rel)
  | String "/" rel => ("/", rel)
  | _ => ("", p)
  end.

Definition is_part (x : string) : bool :=
  truthy x && negb (String.eqb x ".").

(** [_parse_path]: root and the components that are neither empty nor a
    single dot. *)
Definition parse_path (path : string) : string * list string :=
  if negb (truthy path) then ("", [])
  else
    let '(root, rel) := splitroot path in
    (root, filter is_part (split "/" rel)).

(** [str] of the path made of [root] and [tail]. *)
Definition format_parsed_parts (root : string) (tail : list string) : string :=
  let s := if truthy root then root ++ join "/" tail else join "/" tail in
  if truthy s then s else ".".

(** [Path(p).name] *)
Definition name (path : string) : string :=
  List.last (snd (parse_path path)) "".

(** [[str(q) for q in Path(p).parents]]: nearest ancestor first. *)
Definition parents (path : string) : list string :=
  let '(root, tail) := parse_path path in
  map (fun idx => format_parsed_parts root
                    (firstn (List.length tail - idx - 1) tail))
      (seq 0 (List.length tail)).

(** [Path(p).suffix] *)
Definition suffix (path : string) : string :=
  let name := name path in
  match rfind "." name with
  | Some i =>
      if ((0 <? i)%nat && (i <? String.length name - 1)%nat)%bool
      then drop i name else ""
  | None => ""
  end.

End PurePath.

(** ** fnmatch *)

(** Shell-style matching of a whole name against a pattern without
    bracket expressions: [*] matches any run of characters, [?] any one
    character, every other character itself. *)
Fixpoint glob_match (pat : string) : string -> bool :=
  match pat with
  | EmptyString => fun s => negb (truthy s)
  | String "*" pat' =>
      fix star (s : string) : bool :=
        glob_match pat' s
        || match s with
           | EmptyString => false
           | String _ s' => star s'
           end
  | String "?" pat' =>
      fun s => match s with
               | EmptyString => false
               | String _ s' => glob_match pat' s'
               end
  | String c pat' =>
      fun s => match s with
               | EmptyString => false
               | String d s' => Ascii.eqb c d && glob_match pat' s'
               end
  end.

(** [fnmatch.fnmatch(name, pat)] on POSIX, for patterns without [[]. *)
Definition fnmatch_plain (name pat : string) : bool := glob_match pat name.

(** ** src/utils/filters.py *)

Section Filters.

(** [fnmatch.fnmatch name pattern], a library function. *)
Variable fnmatch : string -> string -> bool.

(** The pattern matched against ancestor directories:
    [pattern.rstrip('/**')]. *)
Definition ancestor_pattern (pattern : string) : string :=
  rstrip_chars "/**" pattern.

Fixpoint should_skip_file (file_path : string) (skip_patterns : list string)
  : bool :=
  match skip_patterns with
  | [] => false
  | pattern :: rest =>
      if fnmatch (PurePath.name file_path) pattern then true
      else if fnmatch file_path pattern then true
      else if existsb (fun parent => fnmatch parent (ancestor_pattern pattern))
                      (PurePath.parents file_path)
      then true
      else should_skip_file file_path rest
  end.

End Filters.

Definition extension_map : list (string * string) :=
  [ (".py", "Python"); (".js", "JavaScript"); (".ts", "TypeScript");
    (".tsx", "TypeScript React"); (".jsx", "JavaScript React");
    (".java", "Java"); (".go", "Go"); (".rs", "Rust"); (".rb", "Ruby");
    (".php", "PHP"); (".cs", "C#"); (".cpp", "C++"); (".c", "C");
    (".h", "C/C++ Header"); (".swift", "Swift"); (".kt", "Kotlin");
    (".scala", "Scala"); (".sql", "SQL"); (".sh", "Shell");
    (".yml", "YAML"); (".yaml", "YAML"); (".json", "JSON");
    (".xml", "XML"); (".html", "HTML"); (".css", "CSS");
    (".scss", "SCSS"); (".md", "Markdown") ].

(** [d.get(key)] on a dict written as its list of items. *)
Fixpoint dict_get (key : string) (d : list (string * string)) : option string :=
  match d with
  | [] => None
  | (k, v) :: rest => if String.eqb k key then Some v else dict_get key rest
  end.

Definition get_file_language (file_path : string) : string :=
  let ext := lower (PurePath.suffix file_path) in
  match dict_get ext extension_map with
  | Some language => language
  | None => "Unknown"
  end.

(** ** src/core/chunker.py *)

(** One entry of [pr_data['files']]. [patch] is [None] when the key holds
    [None]; [changes] is [None] when the key is missing. *)
Module File.
Record t := mk {
  filename : string;
  status : string;
  additions : Z;
  deletions : Z;
  changes : option Z;
  patch : option string;
  sha : string
}.
End File.

Module Chunk.
Record t := mk {
  file_path : string;
  file_language : string;
  file_status : string;
  additions : Z;
  deletions : Z;
  patch : string;
  pr_title : string;
  pr_description : string
}.
End Chunk.

Section Chunker.

Variable fnmatch : string -> string -> bool.
(** [self.skip_patterns] *)
Variable skip_patterns : list string.

(** The chunk built for a file that passed the three tests, [patch]
    being the value of [file['patch']]. *)
Definition make_chunk (file : File.t) (patch pr_title pr_description : string)
  : Chunk.t :=
  {| Chunk.file_path := File.filename file;
     Chunk.file_language := get_file_language (File.filename file);
     Chunk.file_status := File.status file;
     Chunk.additions := File.additions file;
     Chunk.deletions := File.deletions file;
     Chunk.patch := patch;
     Chunk.pr_title := pr_title;
     Chunk.pr_description := pr_description |}.

(** [file.get('changes', 0)] *)
Definition get_changes (file : File.t) : Z :=
  match File.changes file with Some n => n | None => 0%Z end.

(** The [for file in files] loop, threading [chunks]; each [continue]
    is a recursive call that leaves [chunks] as it is. *)
Fixpoint chunk_loop (files : list File.t) (pr_title pr_description : string)
  (chunks : list Chunk.t) : list Chunk.t :=
  match files with
  | [] => chunks
  | file :: rest =>
      let filename := File.filename file in
      if should_skip_file fnmatch filename skip_patterns
      then chunk_loop rest pr_title pr_description chunks
      else
        match File.patch file with
        | None => chunk_loop rest pr_title pr_description chunks
        | Some patch =>
            if negb (truthy patch)
            then chunk_loop rest pr_title pr_description chunks
            else if (500 <? get_changes file)%Z
            then chunk_loop rest pr_title pr_description chunks
            else chunk_loop rest pr_title pr_description
                   (chunks ++ [make_chunk file patch pr_title pr_description])
        end
  end.

Definition chunk_pr_files (files : list File.t) (pr_title pr_description : string)
  : list Chunk.t :=
  chunk_loop files pr_title pr_description [].

End Chunker.

(** [estimate_tokens]: [len(text) // 4]. *)
Definition estimate_tokens (text : string) : Z :=
  (Z.of_nat (String.length text) / 4)%Z.

(** The loop of [split_large_patch] over [lines], threading [hunks] and
    [current_hunk]. *)
Fixpoint hunk_loop (lines hunks current_hunk : list string)
  : list string * list string :=
  match lines with
  | [] => (hunks, current_hunk)
  | line :: rest =>
      if startswith "@@" line && nonempty current_hunk
      then hunk_loop rest (hunks ++ [join NL current_hunk]) [line]
      else hunk_loop rest hunks (current_hunk ++ [line])
  end.

Definition split_large_patch (patch : string) (max_lines : Z) : list string :=
  let lines := split nl patch in
  if (Z.of_nat (List.length lines) <=? max_lines)%Z then [patch]
  else
    let '(hunks, current_hunk) := hunk_loop lines [] [] in
    if nonempty current_hunk
    then hunks ++ [join NL current_hunk]
    else hunks.

(** ** src/core/reviewer.py *)

(** A prompt template in parsed form: literal text and replacement
    fields [{name}].  The two templates are read from prompts/*.txt when
    the reviewer is built. *)
Inductive piece : Type :=
| Lit (text : string)
| Field (name : string).

Definition template := list piece.

(** [template.format] with keyword arguments [kwargs]: a field absent
    from them raises
    [KeyError], whose text is the quoted name. *)
Fixpoint format (tpl : template) (kwargs : list (string * string))
  : outcome string :=
  match tpl with
  | [] => Returns ""
  | Lit text :: rest =>
      match format rest kwargs with
      | Returns s => Returns (text ++ s)
      | Raises e => Raises e
      end
  | Field name :: rest =>
      match dict_get name kwargs with
      | None => Raises ("'" ++ name ++ "'")
      | Some v =>
          match format rest kwargs with
          | Returns s => Returns (v ++ s)
          | Raises e => Raises e
          end
      end
  end.

Module Project.
Record t := mk {
  name : option string;
  language : option string;
  framework : option string
}.
End Project.

Module Review.
Record t := mk {
  file_path : string;
  file_language : string;
  review : string
}.
End Review.

(** [d.get(key, default)] *)
Definition get_default (v : option string) (default : string) : string :=
  match v with Some x => x | None => default end.

Section Reviewer.

(** State of everything outside the process. *)
Variable world : Type.
(** The body of the [try]: [client.chat.completions.create] on the two
    messages, then [response.choices[0].message.content]. *)
Variable completions_create :
  world -> string -> string -> outcome string * world.
Variable system_prompt_template : template.
Variable review_prompt_template : template.

Definition system_kwargs (project_info : Project.t) : list (string * string) :=
  [ ("project_name", get_default (Project.name project_info) "Unknown");
    ("primary_language", get_default (Project.language project_info) "Unknown");
    ("framework", get_default (Project.framework project_info) "Unknown") ].

Definition review_kwargs (chunk : Chunk.t) : list (string * string) :=
  [ ("pr_title", Chunk.pr_title chunk);
    ("pr_description", Chunk.pr_description chunk);
    ("file_path", Chunk.file_path chunk);
    ("file_language", Chunk.file_language chunk);
    ("diff_content", Chunk.patch chunk) ].

Definition review_chunk (w : world) (chunk : Chunk.t) (project_info : Project.t)
  : outcome string * world :=
  match format system_prompt_template (system_kwargs project_info) with
  | Raises e => (Raises e, w)
  | Returns system_prompt =>
      match format review_prompt_template (review_kwargs chunk) with
      | Raises e => (Raises e, w)
      | Returns review_prompt =>
          match completions_create w system_prompt review_prompt with
          | (Returns review_text, w') => (Returns review_text, w')
          | (Raises e, w') =>
              (Returns ("Error reviewing " ++ Chunk.file_path chunk
                        ++ ": " ++ e), w')
          end
      end
  end.

(** The [for i, chunk in enumerate(chunks, 1)] loop, threading
    [reviews]. *)
Fixpoint review_loop (w : world) (chunks : list Chunk.t)
  (project_info : Project.t) (reviews : list Review.t)
  : outcome (list Review.t) * world :=
  match chunks with
  | [] => (Returns reviews, w)
  | chunk :: rest =>
      match review_chunk w chunk project_info with
      | (Raises e, w') => (Raises e, w')
      | (Returns review_text, w') =>
          review_loop w' rest project_info
            (reviews ++ [ {| Review.file_path := Chunk.file_path chunk;
                             Review.file_language := Chunk.file_language chunk;
                             Review.review := review_text |} ])
      end
  end.

Definition review_all_chunks (w : world) (chunks : list Chunk.t)
  (project_info : Project.t) : outcome (list Review.t) * world :=
  review_loop w chunks project_info [].

End Reviewer.

(** ** src/core/responder.py *)

Inductive section_key : Type :=
| PR_SUMMARY | MAJOR_ISSUES | MINOR_ISSUES | TEST_SUGGESTIONS
| OVERALL_ASSESSMENT.

(** A value of the [sections] dict: committed text, or the list that
    replaces it under a list-valued key. *)
Inductive value : Type :=
| Str (text : string)
| Items (items : list string).

(** The [sections] dict: one optional value per possible key. *)
Record sections : Type := mk_sections {
  summary : option value;
  major_issues : option value;
  minor_issues : option value;
  test_suggestions : option value;
  overall_assessment : option value
}.

Definition empty_sections : sections := mk_sections None None None None None.

(** [sections.get(key)] *)
Definition sec_get (key : section_key) (d : sections) : option value :=
  match key with
  | PR_SUMMARY => summary d
  | MAJOR_ISSUES => major_issues d
  | MINOR_ISSUES => minor_issues d
  | TEST_SUGGESTIONS => test_suggestions d
  | OVERALL_ASSESSMENT => overall_assessment d
  end.

(** [sections[key] = v] *)
Definition sec_set (key : section_key) (v : value) (d : sections) : sections :=
  match key with
  | PR_SUMMARY =>
      mk_sections (Some v) (major_issues d) (minor_issues d)
        (test_suggestions d) (overall_assessment d)
  | MAJOR_ISSUES =>
      mk_sections (summary d) (Some v) (minor_issues d)
        (test_suggestions d) (overall_assessment d)
  | MINOR_ISSUES =>
      mk_sections (summary d) (major_issues d) (Some v)
        (test_suggestions d) (overall_assessment d)
  | TEST_SUGGESTIONS =>
      mk_sections (summary d) (major_issues d) (minor_issues d)
        (Some v) (overall_assessment d)
  | OVERALL_ASSESSMENT =>
      mk_sections (summary d) (major_issues d) (minor_issues d)
        (test_suggestions d) (Some v)
  end.

(** The chain of [startswith] tests on a trimmed line. *)
Definition header_of (line : string) : option section_key :=
  if startswith "PR_SUMMARY:" line then Some PR_SUMMARY
  else if startswith "MAJOR_ISSUES:" line then Some MAJOR_ISSUES
  else if startswith "MINOR_ISSUES:" line then Some MINOR_ISSUES
  else if startswith "TEST_SUGGESTIONS:" line then Some TEST_SUGGESTIONS
  else if startswith "OVERALL_ASSESSMENT:" line then Some OVERALL_ASSESSMENT
  else None.

(** State of the line loop of [_parse_review]. *)
Record parse_state : Type := mk_state {
  st_sections : sections;
  current_section : option section_key;
  current_content : list string
}.

(** [if current_section: sections[current_section] =
    '\n'.join(current_content).strip()] *)
Definition commit (st : parse_state) : sections :=
  match current_section st with
  | Some key =>
      sec_set key (Str (strip (join NL (current_content st)))) (st_sections st)
  | None => st_sections st
  end.

(** One iteration of the line loop.  The five header branches have the
    same body up to the key they open. *)
Definition parse_line (st : parse_state) (raw : string) : parse_state :=
  let line := strip raw in
  match header_of line with
  | Some key => mk_state (commit st) (Some key) []
  | None =>
      match current_section st with
      | Some _ =>
          if truthy line
          then mk_state (st_sections st) (current_section st)
                 (current_content st ++ [line])
          else st
      | None => st
      end
  end.

(** The comprehension that turns committed text into a list of items. *)
Definition parse_items (text : string) : list string :=
  map (fun item => strip (strip_chars "- " item))
      (filter (fun item => startswith "-" (strip item)) (split nl text)).

(** One iteration of [for key in [...]: if key in sections: ...].
    A list-valued key holds committed text when the loop reaches it. *)
Definition parse_list (d : sections) (key : section_key) : sections :=
  match sec_get key d with
  | Some (Str text) => sec_set key (Items (parse_items text)) d
  | _ => d
  end.

Definition _parse_review (review_text : string) : sections :=
  let st := fold_left parse_line (split nl review_text)
              (mk_state empty_sections None []) in
  fold_left parse_list [MAJOR_ISSUES; MINOR_ISSUES; TEST_SUGGESTIONS]
    (commit st).

(** [pr_data], the fields read by the report. *)
Module PR.
Record t := mk {
  number : Z;
  title : string;
  author : string;
  changed_files : Z;
  additions : Z;
  deletions : Z
}.
End PR.

(** [comment_parts.extend] with a heading, an empty line, the items and
    an empty line. *)
Definition extend_section (comment_parts : list string) (heading : string)
  (items : list string) : list string :=
  (comment_parts ++ [heading; ""] ++ items ++ [""])%list.

Definition major_heading : string := "## 🔴 Major Issues".
Definition minor_heading : string := "## 🟡 Minor Issues & Suggestions".
Definition test_heading : string := "## 🧪 Test Suggestions".
Definition assessment_heading : string := "## 📊 Overall Assessment".

Definition header_block (pr_data : PR.t) (timestamp : string) : list string :=
  [ "# 🤖 AI Code Review";
    "";
    "**PR**: #" ++ str_of_int (PR.number pr_data) ++ " - " ++ PR.title pr_data;
    "**Author**: @" ++ PR.author pr_data;
    "**Files Changed**: " ++ str_of_int (PR.changed_files pr_data)
      ++ " (+" ++ str_of_int (PR.additions pr_data)
      ++ " -" ++ str_of_int (PR.deletions pr_data) ++ ")";
    "**Reviewed**: " ++ timestamp;
    "";
    "---";
    "" ].

Definition no_issues_block : list string :=
  [ "## ✅ No Issues Found";
    "";
    "The code looks good! No major issues or suggestions at this time.";
    "" ].

Definition footer_block : list string :=
  [ "---";
    "";
    "*This review was generated by AI. Please use your judgment and verify suggestions.*" ].

(** [comment_parts] as [_build_comment] leaves it before the final join.
    [timestamp] is the formatted value of [datetime.now()]. *)
Definition comment_parts (timestamp : string) (pr_data : PR.t)
  (summaries major_issues minor_issues test_suggestions assessments
     : list string) : list string :=
  let parts := header_block pr_data timestamp in
  let parts := if nonempty major_issues
               then extend_section parts major_heading major_issues
               else parts in
  let parts := if nonempty minor_issues
               then extend_section parts minor_heading minor_issues
               else parts in
  let parts := if nonempty test_suggestions
               then extend_section parts test_heading test_suggestions
               else parts in
  let parts := if nonempty assessments
               then extend_section parts assessment_heading assessments
               else parts in
  let parts := if negb (nonempty major_issues)
                  && negb (nonempty minor_issues)
                  && negb (nonempty test_suggestions)
               then (parts ++ no_issues_block)%list
               else parts in
  (parts ++ footer_block)%list.

Definition _build_comment (timestamp : string) (pr_data : PR.t)
  (summaries major_issues minor_issues test_suggestions assessments
     : list string) : string :=
  join NL (comment_parts timestamp pr_data summaries major_issues
             minor_issues test_suggestions assessments).

(** The five lists collected by [aggregate_reviews]. *)
Record collected : Type := mk_collected {
  all_summaries : list string;
  all_major_issues : list string;
  all_minor_issues : list string;
  all_test_suggestions : list string;
  all_assessments : list string
}.

(** [sections.get(key)] when it is truthy and a string. *)
Definition truthy_text (v : option value) : option string :=
  match v with
  | Some (Str text) => if truthy text then Some text else None
  | _ => None
  end.

(** The items looped over under [if sections.get(key): for x in ...]. *)
Definition truthy_items (v : option value) : list string :=
  match v with
  | Some (Items items) => items
  | _ => []
  end.

Definition attributed (file_path item : string) : string :=
  "- **" ++ file_path ++ "**: " ++ item.

(** One iteration of [for review in reviews]. *)
Definition collect_review (acc : collected) (review : Review.t) : collected :=
  let sections := _parse_review (Review.review review) in
  let path := Review.file_path review in
  mk_collected
    (match truthy_text (sec_get PR_SUMMARY sections) with
     | Some text => all_summaries acc ++ ["**" ++ path ++ "**: " ++ text]
     | None => all_summaries acc
     end)
    (all_major_issues acc
       ++ map (attributed path) (truthy_items (sec_get MAJOR_ISSUES sections)))
    (all_minor_issues acc
       ++ map (attributed path) (truthy_items (sec_get MINOR_ISSUES sections)))
    (all_test_suggestions acc
       ++ map (attributed path)
            (truthy_items (sec_get TEST_SUGGESTIONS sections)))
    (match truthy_text (sec_get OVERALL_ASSESSMENT sections) with
     | Some text => all_assessments acc ++ [text]
     | None => all_assessments acc
     end).

Definition collect (reviews : list Review.t) : collected :=
  fold_left collect_review reviews (mk_collected [] [] [] [] []).

Definition aggregate_reviews (timestamp : string) (reviews : list Review.t)
  (pr_data : PR.t) : string :=
  let c := collect reviews in
  _build_comment timestamp pr_data (all_summaries c) (all_major_issues c)
    (all_minor_issues c) (all_test_suggestions c) (all_assessments c).

(** ** src/utils/config.py *)

(** [int(s)] for a string: surrounding whitespace is dropped, a sign may
    come first, then decimal digits, single underscores being allowed
    between two digits.  [None] stands for [ValueError].  The whitespace
    [int] accepts is that of [str.isspace] without the separators FS..US. *)
Definition is_digit (c : ascii) : bool :=
  let n := nat_of_ascii c in ((48 <=? n)%nat && (n <=? 57)%nat)%bool.

Definition int_space (c : ascii) : bool :=
  let n := nat_of_ascii c in
  ((9 <=? n)%nat && (n <=? 13)%nat) || (n =? 32)%nat
  || (n =? 133)%nat || (n =? 160)%nat.

Fixpoint int_digits (acc : Z) (after_digit : bool) (s : string) : option Z :=
  match s with
  | EmptyString => if after_digit then Some acc else None
  | String c r =>
      if is_digit c
      then int_digits (10 * acc + Z.of_nat (nat_of_ascii c - 48))%Z true r
      else if (Ascii.eqb c "_" && after_digit)%bool
      then int_digits acc false r
      else None
  end.

Definition int_of_str (s : string) : option Z :=
  match strip_by int_space s with
  | String "-" r => option_map Z.opp (int_digits 0 false r)
  | String "+" r => int_digits 0 false r
  | t => int_digits 0 false t
  end.

(** The configuration dict read from the YAML file, with the keys the
    pipeline reads; [llm_model] is the [model] entry of the [llm]
    mapping.  An absent key is [None]. *)
Module Config.
Record t := mk {
  enabled : option bool;
  max_files : option Z;
  skip_patterns : option (list string);
  llm_model : option string
}.
End Config.

Definition empty_config : Config.t := Config.mk None None None None.

Definition _default_config : Config.t :=
  Config.mk (Some true) (Some 50%Z)
    (Some ["*.min.js"; "*.min.css"; "package-lock.json"; "yarn.lock";
           "*.generated.*"; "dist/**"; "build/**"])
    (Some "gpt-4-turbo-preview").

(** What opening and parsing the configuration file gave: no such file,
    or the parsed document ([None] for an empty one). *)
Inductive config_file : Type :=
| FileNotFound
| Document (doc : option Config.t).

(** [_load_config]: [yaml.safe_load(f) or {}], the defaults when the file
    does not exist. *)
Definition _load_config (file : config_file) : Config.t :=
  match file with
  | FileNotFound => _default_config
  | Document None => empty_config
  | Document (Some doc) => doc
  end.

(** The process environment: [os.getenv(name)]. *)
Definition environ := string -> option string.

(** [a or b] on optional strings. *)
Definition or_else (a b : option string) : option string :=
  match a with
  | Some s => if truthy s then a else b
  | None => b
  end.

Definition github_token (env : environ) : outcome string :=
  match env "GITHUB_TOKEN" with
  | Some token =>
      if truthy token then Returns token
      else Raises "GITHUB_TOKEN environment variable is required"
  | None => Raises "GITHUB_TOKEN environment variable is required"
  end.

Definition llm_api_key (env : environ) : outcome string :=
  match or_else (env "LLM_API_KEY") (env "OPENAI_API_KEY") with
  | Some key =>
      if truthy key then Returns key
      else Raises "LLM_API_KEY or OPENAI_API_KEY environment variable is required"
  | None =>
      Raises "LLM_API_KEY or OPENAI_API_KEY environment variable is required"
  end.

Definition llm_base_url (env : environ) : string :=
  get_default (env "LLM_BASE_URL") "".

Definition llm_model (env : environ) (config : Config.t) : string :=
  match env "LLM_MODEL" with
  | Some model => model
  | None => get_default (Config.llm_model config) "gpt-4-turbo-preview"
  end.

(** [max_files]: [None] stands for the [ValueError] of [int]. *)
Definition max_files (env : environ) (config : Config.t) : option Z :=
  match env "MAX_FILES_PER_PR" with
  | Some s => int_of_str s
  | None => Some (match Config.max_files config with
                  | Some n => n
                  | None => 50%Z
                  end)
  end.

Definition skip_patterns (config : Config.t) : list string :=
  match Config.skip_patterns config with
  | Some patterns => patterns
  | None => []
  end.

Definition is_enabled (config : Config.t) : bool :=
  match Config.enabled config with
  | Some b => b
  | None => true
  end.

(** ** src/core/fetcher.py *)

(** Outcome of a call to the hosting API: a value, a [GithubException],
    or another exception. *)
Inductive fetched (A : Type) : Type :=
| Fetched (a : A)
| GithubException (e : string)
| OtherException (e : string).
Arguments Fetched {A} a.
Arguments GithubException {A} e.
Arguments OtherException {A} e.

(** The attributes of a pull request read by [get_pr_data]. *)
Module Pull.
Record t := mk {
  number : Z;
  title : string;
  body : option string;
  login : string;
  additions : Z;
  deletions : Z;
  changed_files : Z
}.
End Pull.

(** [pr_data]: the keys read by the report, the description and the
    files. *)
Module PRData.
Record t := mk {
  report : PR.t;
  description : string;
  files : list File.t
}.
End PRData.

(** The attributes of the repository read by [get_project_info]. *)
Module Repo.
Record t := mk {
  name : string;
  language : option string
}.
End Repo.

Section Fetcher.

Variable world : Type.
(** [self.repo.get_pull(pr_number)] *)
Variable get_pull : world -> Z -> fetched Pull.t * world.
(** The iteration over [pr.get_files()], each file as the dict built
    from it. *)
Variable get_files : world -> Pull.t -> fetched (list File.t) * world.
(** Reading the attributes of [self.repo]. *)
Variable repo_attributes : world -> fetched Repo.t * world.
(** [pr.create_issue_comment(comment_body)] *)
Variable create_issue_comment :
  world -> Pull.t -> string -> fetched unit * world.

(** [value or default] on an optional string. *)
Definition or_default (value : option string) (default : string) : string :=
  match value with
  | Some s => if truthy s then s else default
  | None => default
  end.

(** [get_pr_data]: a [GithubException] is logged and raised again, any
    other exception is not caught. *)
Definition get_pr_data (w : world) (pr_number : Z)
  : outcome PRData.t * world :=
  match get_pull w pr_number with
  | (GithubException e, w1) => (Raises e, w1)
  | (OtherException e, w1) => (Raises e, w1)
  | (Fetched pr, w1) =>
      match get_files w1 pr with
      | (GithubException e, w2) => (Raises e, w2)
      | (OtherException e, w2) => (Raises e, w2)
      | (Fetched files, w2) =>
          (Returns
             {| PRData.report :=
                  PR.mk (Pull.number pr) (Pull.title pr) (Pull.login pr)
                    (Pull.changed_files pr) (Pull.additions pr)
                    (Pull.deletions pr);
                PRData.description := or_default (Pull.body pr) "";
                PRData.files := files |}, w2)
      end
  end.

Definition post_review_comment (w : world) (pr_number : Z)
  (comment_body : string) : outcome unit * world :=
  match get_pull w pr_number with
  | (GithubException e, w1) => (Raises e, w1)
  | (OtherException e, w1) => (Raises e, w1)
  | (Fetched pr, w1) =>
      match create_issue_comment w1 pr comment_body with
      | (GithubException e, w2) => (Raises e, w2)
      | (OtherException e, w2) => (Raises e, w2)
      | (Fetched _, w2) => (Returns tt, w2)
      end
  end.

(** [get_project_info]: a [GithubException] is answered with the
    fall-back dict; the key [framework] is never set. *)
Definition get_project_info (w : world) : outcome Project.t * world :=
  match repo_attributes w with
  | (Fetched repo, w1) =>
      (Returns
         {| Project.name := Some (Repo.name repo);
            Project.language :=
              Some (or_default (Repo.language repo) "Unknown");
            Project.framework := None |}, w1)
  | (GithubException _, w1) =>
      (Returns
         {| Project.name := Some "Unknown";
            Project.language := Some "Unknown";
            Project.framework := None |}, w1)
  | (OtherException e, w1) => (Raises e, w1)
  end.

End Fetcher.

(** ** src/main.py *)

(** The notice posted for a change set with too many files. *)
Definition too_large_notice (files max : Z) : string :=
  "# 🤖 AI Code Review" ++ NL
  ++ "            " ++ NL
  ++ "**PR Too Large**" ++ NL
  ++ NL
  ++ "This PR has " ++ str_of_int files
  ++ " files, which exceeds the maximum of " ++ str_of_int max
  ++ " files for automated review." ++ NL
  ++ NL
  ++ "Please consider:" ++ NL
  ++ "- Breaking this PR into smaller, focused changes" ++ NL
  ++ "- Requesting manual review from team members" ++ NL
  ++ NL
  ++ "*Automated review is skipped for very large PRs to ensure quality feedback.*"
  ++ NL.

(** [int(os.getenv('PR_NUMBER', 0))] *)
Definition pr_number_of (env : environ) : option Z :=
  match env "PR_NUMBER" with
  | Some s => int_of_str s
  | None => Some 0%Z
  end.

Section Main.

Variable world : Type.
Variable fnmatch : string -> string -> bool.
Variable env : environ.
(** [Config()]: looking for the file, opening and parsing it. *)
Variable read_config : world -> outcome config_file * world.
(** [PRFetcher(token, repo_name)]: the client and [get_repo]. *)
Variable github_init : world -> string -> string -> outcome unit * world.
Variable get_pull : world -> Z -> fetched Pull.t * world.
Variable get_files : world -> Pull.t -> fetched (list File.t) * world.
Variable repo_attributes : world -> fetched Repo.t * world.
Variable create_issue_comment :
  world -> Pull.t -> string -> fetched unit * world.
(** [config.llm_temperature], a float or the [ValueError] of [float]. *)
Variable temperature : Type.
Variable llm_temperature : outcome temperature.
(** [LLMReviewer(...)]: the client for the key and base URL, and the two
    prompt templates read from their files. *)
Variable reviewer_init :
  world -> string -> option string -> outcome (template * template) * world.
(** The completion call of a reviewer built with the given key, base
    URL, model and temperature. *)
Variable completions_create :
  string -> option string -> string -> temperature ->
  world -> string -> string -> outcome string * world.
(** [datetime.now().strftime(...)] *)
Variable now : world -> string * world.

(** A step of [main]: a value, or the exit status with which the process
    ends there. *)
Definition step (A : Type) : Type := world -> (A + Z) * world.

Definition ret {A} (a : A) : step A := fun w => (inl a, w).

Definition bind {A B} (m : step A) (k : A -> step B) : step B :=
  fun w => match m w with
           | (inl a, w') => k a w'
           | (inr status, w') => (inr status, w')
           end.

(** [return] out of [main], and [sys.exit(status)]. *)
Definition exit {A} (status : Z) : step A := fun w => (inr status, w).

(** A call inside the [try]: an exception is logged and the process
    exits with status 1. *)
Definition attempt {A} (call : world -> outcome A * world) : step A :=
  fun w => match call w with
           | (Returns a, w') => (inl a, w')
           | (Raises _, w') => (inr 1%Z, w')
           end.

Definition attempt_value {A} (v : outcome A) : step A :=
  attempt (fun w => (v, w)).

Definition attempt_int (v : option Z) : step Z :=
  fun w => match v with
           | Some n => (inl n, w)
           | None => (inr 1%Z, w)
           end.

Local Notation "x <- m ;; k" := (bind m (fun x => k))
  (at level 61, m at next level, right associativity).

Definition main_body : step unit :=
  file <- attempt read_config ;;
  let config := _load_config file in
  if negb (is_enabled config) then exit 0%Z else
  pr_number <- attempt_int (pr_number_of env) ;;
  let repo_name := get_default (env "REPO_NAME") "" in
  if (pr_number =? 0)%Z || negb (truthy repo_name) then exit 1%Z else
  token <- attempt_value (github_token env) ;;
  _ <- attempt (fun w => github_init w token repo_name) ;;
  api_key <- attempt_value (llm_api_key env) ;;
  let model := llm_model env config in
  temp <- attempt_value llm_temperature ;;
  let base_url := if truthy (llm_base_url env)
                  then Some (llm_base_url env) else None in
  templates <- attempt (fun w => reviewer_init w api_key base_url) ;;
  pr_data <- attempt (fun w => get_pr_data world get_pull get_files w pr_number) ;;
  project_info <- attempt (get_project_info world repo_attributes) ;;
  let files := PRData.files pr_data in
  limit <- attempt_int (max_files env config) ;;
  if (limit <? Z.of_nat (List.length files))%Z then
    _ <- attempt (fun w =>
           post_review_comment world get_pull create_issue_comment w pr_number
             (too_large_notice (Z.of_nat (List.length files)) limit)) ;;
    exit 0%Z
  else
  let chunks := chunk_pr_files fnmatch (skip_patterns config) files
                  (PR.title (PRData.report pr_data))
                  (PRData.description pr_data) in
  if negb (nonempty chunks) then exit 0%Z else
  reviews <- attempt (fun w =>
               review_all_chunks world
                 (completions_create api_key base_url model temp)
                 (fst templates) (snd templates) w chunks project_info) ;;
  timestamp <- (fun w => let '(t, w') := now w in (inl t, w')) ;;
  let comment := aggregate_reviews timestamp reviews (PRData.report pr_data) in
  _ <- attempt (fun w =>
         post_review_comment world get_pull create_issue_comment w pr_number
           comment) ;;
  ret tt.

(** The exit status of the process and the world it leaves. *)
Definition main (w : world) : Z * world :=
  match main_body w with
  | (inl _, w') => (0%Z, w')
  | (inr status, w') => (status, w')
  end.

End Main.

(** * Vocabulary of the properties *)

Section ChunkerSpec.

Variable fnmatch : string -> string -> bool.
Variable skip_patterns : list string.

(** The three tests a file has to pass, in the words of the
    specification: no skip pattern matches, the patch is not empty, and
    at most 500 changed lines. *)
Definition reviewable (file : File.t) : bool :=
  negb (should_skip_file fnmatch (File.filename file) skip_patterns)
  && match File.patch file with Some patch => truthy patch | None => false end
  && (get_changes file <=? 500)%Z.

(** The chunk of a reviewable file. *)
Definition chunk_of (pr_title pr_description : string) (file : File.t)
  : Chunk.t :=
  make_chunk file (get_default (File.patch file) "") pr_title pr_description.

End ChunkerSpec.

Section ReviewerSpec.

Variable world : Type.
Variable completions_create :
  world -> string -> string -> outcome string * world.
Variable system_prompt_template : template.
Variable review_prompt_template : template.

(** The specification's account of a run over the chunks: one review
    per chunk in order, holding the endpoint's text, or the error text
    when the call failed, the endpoint being called once per chunk. *)
Inductive reviewed (project_info : Project.t)
  : world -> list Chunk.t -> list Review.t -> world -> Prop :=
| reviewed_nil w : reviewed project_info w [] [] w
| reviewed_text w w1 w2 chunk rest reviews system_prompt review_prompt text :
    format system_prompt_template (system_kwargs project_info)
      = Returns system_prompt ->
    format review_prompt_template (review_kwargs chunk)
      = Returns review_prompt ->
    completions_create w system_prompt review_prompt = (Returns text, w1) ->
    reviewed project_info w1 rest reviews w2 ->
    reviewed project_info w (chunk :: rest)
      (Review.mk (Chunk.file_path chunk) (Chunk.file_language chunk) text
         :: reviews) w2
| reviewed_error w w1 w2 chunk rest reviews system_prompt review_prompt e :
    format system_prompt_template (system_kwargs project_info)
      = Returns system_prompt ->
    format review_prompt_template (review_kwargs chunk)
      = Returns review_prompt ->
    completions_create w system_prompt review_prompt = (Raises e, w1) ->
    reviewed project_info w1 rest reviews w2 ->
    reviewed project_info w (chunk :: rest)
      (Review.mk (Chunk.file_path chunk) (Chunk.file_language chunk)
         ("Error reviewing " ++ Chunk.file_path chunk ++ ": " ++ e)
         :: reviews) w2.

End ReviewerSpec.

Definition is_marker (line : string) : bool := startswith "@@" line.

(** The loop of [split_large_patch] with every hunk kept as its list of
    lines rather than joined. *)
Fixpoint group_loop (lines : list string) (groups : list (list string))
  (current : list string) : list (list string) * list string :=
  match lines with
  | [] => (groups, current)
  | line :: rest =>
      if is_marker line && nonempty current
      then group_loop rest (groups ++ [current]) [line]
      else group_loop rest groups (current ++ [line])
  end.

(** What the loop maintains: the closed hunks and the open one are not
    empty, a marker line occurs in a hunk only as its first line, and every
    hunk but the first begins with a marker line. *)
Record hunks_ok (all : list (list string)) : Prop := {
  ok_nonempty : Forall (fun g => g <> []) all;
  ok_inner : Forall (fun g => Forall (fun l => is_marker l = false) (tl g)) all;
  ok_heads : Forall (fun g => is_marker (hd "" g) = true) (tl all)
}.

Definition count_markers (lines : list string) : nat :=
  List.length (filter is_marker lines).

(** The hunks of a patch as lists of lines. *)
Definition hunk_groups (lines : list string) : list (list string) :=
  let r := group_loop lines [] [] in
  if nonempty (snd r) then (fst r ++ [snd r])%list else fst r.

(** A patch of 250 lines whose three hunks follow a header line. *)
Definition patch_with_header : string :=
  join NL (["diff --git a/x b/x"; "@@ -1,82 +1,82 @@"] ++ repeat "+a" 82
           ++ ["@@ -100,82 +100,82 @@"] ++ repeat "+b" 82
           ++ ["@@ -200,82 +200,82 @@"] ++ repeat "+c" 82).

(** A patch of 250 lines made of three hunks. *)
Definition patch_three_hunks : string :=
  join NL (["@@ -1,82 +1,82 @@"] ++ repeat "+a" 82
           ++ ["@@ -100,82 +100,82 @@"] ++ repeat "+b" 82
           ++ ["@@ -200,83 +200,83 @@"] ++ repeat "+c" 83).

Definition sample_files : list File.t :=
  [ File.mk "src/app.js" "modified" 3 1 (Some 4%Z) (Some "@@ -1 +1 @@") "a1";
    File.mk "app.min.js" "modified" 1 1 (Some 2%Z) (Some "@@ -1 +1 @@") "b2";
    File.mk "logo.png" "added" 0 0 (Some 0%Z) None "c3";
    File.mk "src/big.py" "modified" 400 101 (Some 501%Z) (Some "@@ -1 +1 @@") "d4";
    File.mk "dist/bundle.js" "modified" 1 0 (Some 1%Z) (Some "@@ -1 +1 @@") "e5";
    File.mk "README.md" "modified" 250 250 (Some 500%Z) (Some "@@ -1 +1 @@") "f6" ].

(** The transformation in the words of the specification: a trailing
    ["/**"] is removed and nothing else. *)
Fixpoint removesuffix (suffix s : string) : string :=
  match s with
  | EmptyString => EmptyString
  | String c r =>
      if String.eqb s suffix then EmptyString
      else String c (removesuffix suffix r)
  end.

(** Every character of [s] satisfies [p]. *)
Fixpoint all_chars (p : ascii -> bool) (s : string) : bool :=
  match s with
  | EmptyString => true
  | String c r => p c && all_chars p r
  end.

Fixpoint last_char (s : string) : option ascii :=
  match s with
  | EmptyString => None
  | String c EmptyString => Some c
  | String _ r => last_char r
  end.

Definition first_char (s : string) : option ascii :=
  match s with
  | EmptyString => None
  | String c _ => Some c
  end.

Definition not_in (p : ascii -> bool) (c : option ascii) : Prop :=
  match c with Some a => p a = false | None => True end.

(** Every replacement field of the template is among [names]. *)
Fixpoint template_ok (names : list string) (tpl : template) : bool :=
  match tpl with
  | [] => true
  | Lit _ :: rest => template_ok names rest
  | Field name :: rest =>
      existsb (String.eqb name) names && template_ok names rest
  end.

Definition system_fields : list string :=
  ["project_name"; "primary_language"; "framework"].

Definition review_fields : list string :=
  ["pr_title"; "pr_description"; "file_path"; "file_language"; "diff_content"].

(** An endpoint that answers every other call and fails the others; the
    world counts the calls. *)
Definition flaky_endpoint (calls : nat) (system_prompt review_prompt : string)
  : outcome string * nat :=
  if Nat.even calls
  then (Returns ("MAJOR_ISSUES:" ++ NL ++ "- none"), S calls)
  else (Raises "Connection error.", S calls).

Definition sample_system_template : template :=
  [Lit "You review "; Field "project_name"; Lit " written in ";
   Field "primary_language"; Lit "."].

Definition sample_review_template : template :=
  [Lit "File "; Field "file_path"; Lit " ("; Field "file_language";
   Lit "):"; Lit NL; Field "diff_content"].

Definition sample_chunks : list Chunk.t :=
  [ Chunk.mk "a.py" "Python" "modified" 1 0 "@@ -1 +1 @@" "T" "D";
    Chunk.mk "b.js" "JavaScript" "added" 2 0 "@@ -0,0 +1,2 @@" "T" "D" ].

Definition section_headers : list string :=
  ["PR_SUMMARY:"; "MAJOR_ISSUES:"; "MINOR_ISSUES:"; "TEST_SUGGESTIONS:";
   "OVERALL_ASSESSMENT:"].

(** A trimmed line begins with one of the five headers. *)
Definition begins_with_header (line : string) : bool :=
  existsb (fun header => startswith header line) section_headers.

(** The dict after the line loop and the commit of the last section,
    before the list-valued keys are rewritten. *)
Definition committed_sections (review_text : string) : sections :=
  commit (fold_left parse_line (split nl review_text)
            (mk_state empty_sections None [])).

Definition is_bullet (item : string) : bool := startswith "-" (strip item).

(** What the code makes of a kept line. *)
Definition clean_item (item : string) : string :=
  strip (strip_chars "- " item).

(** What the specification makes of it: the trimmed line without its
    leading dash, trimmed again. *)
Definition spec_bullet (item : string) : string :=
  strip (drop 1 (strip item)).

(** The line loop only ever stores committed text. *)
Definition only_text (d : sections) : Prop :=
  forall key items, sec_get key d <> Some (Items items).

Definition inner_dash_review : string :=
  "MAJOR_ISSUES:" ++ NL ++ "- -1 is returned on failure".

Definition dashes_review : string :=
  "MINOR_ISSUES:" ++ NL ++ "- rename x" ++ NL ++ "note" ++ NL
  ++ "  -- use --dry-run -" ++ NL ++ "-	tabs".

(** A section of the report in the words of the specification: absent
    when there is nothing to list, otherwise the heading, an empty line,
    the items and an empty line. *)
Definition section_block (heading : string) (items : list string)
  : list string :=
  match items with
  | [] => []
  | _ => heading :: "" :: items ++ [""]
  end.

(** The report expected from the five parts. *)
Definition report_parts (timestamp : string) (pr_data : PR.t)
  (major_issues minor_issues test_suggestions assessments : list string)
  : list string :=
  header_block pr_data timestamp
  ++ section_block major_heading major_issues
  ++ section_block minor_heading minor_issues
  ++ section_block test_heading test_suggestions
  ++ section_block assessment_heading assessments
  ++ match major_issues, minor_issues, test_suggestions with
     | [], [], [] => no_issues_block
     | _, _, _ => []
     end
  ++ footer_block.

(** The three lists of items a review contributes. *)
Definition no_items (review : Review.t) : Prop :=
  let sections := _parse_review (Review.review review) in
  truthy_items (sec_get MAJOR_ISSUES sections) = [] /\
  truthy_items (sec_get MINOR_ISSUES sections) = [] /\
  truthy_items (sec_get TEST_SUGGESTIONS sections) = [].

Definition sample_pr : PR.t := PR.mk 7 "Add parser" "octocat" 2 10 3.

Definition praise_reviews : list Review.t :=
  [ Review.mk "a.py" "Python"
      ("PR_SUMMARY:" ++ NL ++ "Adds a parser" ++ NL ++ "MAJOR_ISSUES:" ++ NL
       ++ "None" ++ NL ++ "OVERALL_ASSESSMENT:" ++ NL ++ "Good to merge");
    Review.mk "b.js" "JavaScript" "Error reviewing b.js: Connection error." ].

Definition summary_reviews (summary : string) : list Review.t :=
  [ Review.mk "a.py" "Python"
      ("PR_SUMMARY:" ++ NL ++ summary ++ NL ++ "MAJOR_ISSUES:" ++ NL
       ++ "- unchecked index" ++ NL ++ "OVERALL_ASSESSMENT:" ++ NL
       ++ "Needs work") ].

(** ** Vocabulary of the further properties *)

Definition not_nl (c : ascii) : bool := negb (Ascii.eqb c nl).

(** The lines the parser acts on: trimmed, and not empty. *)
Definition significant_lines (text : string) : list string :=
  filter truthy (map strip (split nl text)).

Definition header_text (key : section_key) : string :=
  match key with
  | PR_SUMMARY => "PR_SUMMARY:"
  | MAJOR_ISSUES => "MAJOR_ISSUES:"
  | MINOR_ISSUES => "MINOR_ISSUES:"
  | TEST_SUGGESTIONS => "TEST_SUGGESTIONS:"
  | OVERALL_ASSESSMENT => "OVERALL_ASSESSMENT:"
  end.

Definition is_list_key (key : section_key) : bool :=
  match key with
  | MAJOR_ISSUES | MINOR_ISSUES | TEST_SUGGESTIONS => true
  | PR_SUMMARY | OVERALL_ASSESSMENT => false
  end.

Definition key_eqb (a b : section_key) : bool :=
  match a, b with
  | PR_SUMMARY, PR_SUMMARY
  | MAJOR_ISSUES, MAJOR_ISSUES
  | MINOR_ISSUES, MINOR_ISSUES
  | TEST_SUGGESTIONS, TEST_SUGGESTIONS
  | OVERALL_ASSESSMENT, OVERALL_ASSESSMENT => true
  | _, _ => false
  end.

(** [key in sections] *)
Definition present (key : section_key) (d : sections) : bool :=
  match sec_get key d with Some _ => true | None => false end.

(** Some line, once trimmed, is the header of [key]. *)
Definition opened (key : section_key) (lines : list string) : bool :=
  existsb (fun raw => match header_of (strip raw) with
                      | Some k => key_eqb key k
                      | None => false
                      end) lines.

(** A line of section text as a model is asked to write it: not empty,
    on one line, without surrounding whitespace, and not a header. *)
Definition content_line (line : string) : bool :=
  match first_char line, last_char line with
  | Some f, Some l =>
      negb (isspace f) && negb (isspace l) && all_chars not_nl line
      && negb (begins_with_header line)
  | _, _ => false
  end.

Definition edge_char (c : ascii) : bool := isspace c || Ascii.eqb c "-".

(** The text of a bullet: not empty, on one line, and neither beginning
    nor ending with whitespace or a dash. *)
Definition clean_text (text : string) : bool :=
  match first_char text, last_char text with
  | Some f, Some l =>
      negb (edge_char f) && negb (edge_char l) && all_chars not_nl text
  | _, _ => false
  end.

Definition bullet_line (text : string) : string := "- " ++ text.

(** A review in the format the prompt asks for: the five headers in
    order, each followed by its lines. *)
Definition render_review (summary major minor tests overall : list string)
  : string :=
  join NL ([header_text PR_SUMMARY] ++ summary
           ++ [header_text MAJOR_ISSUES] ++ map bullet_line major
           ++ [header_text MINOR_ISSUES] ++ map bullet_line minor
           ++ [header_text TEST_SUGGESTIONS] ++ map bullet_line tests
           ++ [header_text OVERALL_ASSESSMENT] ++ overall)%list.

(** The state in which the line loop starts. *)
Definition initial_state : parse_state := mk_state empty_sections None [].

(** The line loop stores trimmed text only. *)
Definition trimmed_values (d : sections) : Prop :=
  forall key text, sec_get key d = Some (Str text) -> strip text = text.

(** The lines a review contributes to the list of [key]. *)
Definition review_items (key : section_key) (review : Review.t) : list string :=
  map (attributed (Review.file_path review))
      (truthy_items (sec_get key (_parse_review (Review.review review)))).

(** The assessment a review contributes, if it has one. *)
Definition review_assessment (review : Review.t) : list string :=
  match truthy_text (sec_get OVERALL_ASSESSMENT
                       (_parse_review (Review.review review))) with
  | Some text => [text]
  | None => []
  end.

(** The summary a review contributes, if it has one. *)
Definition review_summary (review : Review.t) : list string :=
  match truthy_text (sec_get PR_SUMMARY
                       (_parse_review (Review.review review))) with
  | Some text => ["**" ++ Review.file_path review ++ "**: " ++ text]
  | None => []
  end.

(** The text [review_chunk] returns when the completion call raised. *)
Definition error_text (file_path e : string) : string :=
  "Error reviewing " ++ file_path ++ ": " ++ e.

(** What [main] holds once everything is set up and fetched. *)
Module Session.
Record t (temperature : Type) := mk {
  config : Config.t;
  pr_number : Z;
  api_key : string;
  base_url : option string;
  model : string;
  temp : temperature;
  templates : template * template;
  pr_data : PRData.t;
  project_info : Project.t;
  limit : Z
}.
Arguments mk {temperature}.
Arguments config {temperature}.
Arguments pr_number {temperature}.
Arguments api_key {temperature}.
Arguments base_url {temperature}.
Arguments model {temperature}.
Arguments temp {temperature}.
Arguments templates {temperature}.
Arguments pr_data {temperature}.
Arguments project_info {temperature}.
Arguments limit {temperature}.
End Session.

Section MainSpec.

Variable world : Type.
Variable fnmatch : string -> string -> bool.
Variable env : environ.
Variable read_config : world -> outcome config_file * world.
Variable github_init : world -> string -> string -> outcome unit * world.
Variable get_pull : world -> Z -> fetched Pull.t * world.
Variable get_files : world -> Pull.t -> fetched (list File.t) * world.
Variable repo_attributes : world -> fetched Repo.t * world.
Variable temperature : Type.
Variable llm_temperature : outcome temperature.
Variable reviewer_init :
  world -> string -> option string -> outcome (template * template) * world.

(** The part of [main] that comes before the test on the number of
    files: configuration, identifiers, clients, templates, the pull
    request and the file limit. *)
Definition prepare : step world (Session.t temperature) :=
  bind world (attempt world read_config) (fun file =>
  let config := _load_config file in
  if negb (is_enabled config) then exit world 0%Z else
  bind world (attempt_int world (pr_number_of env)) (fun pr_number =>
  let repo_name := get_default (env "REPO_NAME") "" in
  if (pr_number =? 0)%Z || negb (truthy repo_name) then exit world 1%Z else
  bind world (attempt_value world (github_token env)) (fun token =>
  bind world (attempt world (fun w => github_init w token repo_name)) (fun _ =>
  bind world (attempt_value world (llm_api_key env)) (fun api_key =>
  let model := llm_model env config in
  bind world (attempt_value world llm_temperature) (fun temp =>
  let base_url := if truthy (llm_base_url env)
                  then Some (llm_base_url env) else None in
  bind world (attempt world (fun w => reviewer_init w api_key base_url))
    (fun templates =>
  bind world
    (attempt world (fun w => get_pr_data world get_pull get_files w pr_number))
    (fun pr_data =>
  bind world (attempt world (get_project_info world repo_attributes))
    (fun project_info =>
  bind world (attempt_int world (max_files env config)) (fun limit =>
  ret world
    (Session.mk config pr_number api_key base_url model temp templates
       pr_data project_info limit))))))))))).

End MainSpec.

(** The files of the session and the chunks made of them. *)
Definition session_files {temperature} (s : Session.t temperature)
  : list File.t :=
  PRData.files (Session.pr_data s).

Definition session_chunks {temperature} (fnmatch : string -> string -> bool)
  (s : Session.t temperature) : list Chunk.t :=
  chunk_pr_files fnmatch (skip_patterns (Session.config s)) (session_files s)
    (PR.title (PRData.report (Session.pr_data s)))
    (PRData.description (Session.pr_data s)).

(** The exit status after an attempt to post. *)
Definition status_of {A world} (r : outcome A * world) : Z * world :=
  match r with
  | (Returns _, w) => (0%Z, w)
  | (Raises _, w) => (1%Z, w)
  end.

Section MainTail.

Variable world : Type.
Variable fnmatch : string -> string -> bool.
Variable get_pull : world -> Z -> fetched Pull.t * world.
Variable create_issue_comment :
  world -> Pull.t -> string -> fetched unit * world.
Variable temperature : Type.
Variable completions_create :
  string -> option string -> string -> temperature ->
  world -> string -> string -> outcome string * world.
Variable now : world -> string * world.

(** What [main] does with a session: the notice for a change set with
    too many files, nothing when no file is left to review, otherwise the
    reviews, the report and its posting. *)
Definition review_and_post (s : Session.t temperature) (w : world)
  : Z * world :=
  let files := Z.of_nat (List.length (session_files s)) in
  if (Session.limit s <? files)%Z
  then status_of
         (post_review_comment world get_pull create_issue_comment w
            (Session.pr_number s) (too_large_notice files (Session.limit s)))
  else if negb (nonempty (session_chunks fnmatch s)) then (0%Z, w)
  else
    match review_all_chunks world
            (completions_create (Session.api_key s) (Session.base_url s)
               (Session.model s) (Session.temp s))
            (fst (Session.templates s)) (snd (Session.templates s))
            w (session_chunks fnmatch s) (Session.project_info s) with
    | (Raises _, w1) => (1%Z, w1)
    | (Returns reviews, w1) =>
        let '(timestamp, w2) := now w1 in
        status_of
          (post_review_comment world get_pull create_issue_comment w2
             (Session.pr_number s)
             (aggregate_reviews timestamp reviews
                (PRData.report (Session.pr_data s))))
    end.

End MainTail.

(** A world that records the calls made to the collaborators. *)
Definition logged (w : list string) (event : string) : list string :=
  (w ++ [event])%list.

(** An environment with both identifiers, both secrets and a file limit. *)
Definition sample_environ (limit : string) : environ :=
  fun name =>
    if String.eqb name "PR_NUMBER" then Some "7"
    else if String.eqb name "REPO_NAME" then Some "octo/demo"
    else if String.eqb name "GITHUB_TOKEN" then Some "ghp_token"
    else if String.eqb name "OPENAI_API_KEY" then Some "sk-key"
    else if String.eqb name "MAX_FILES_PER_PR" then Some limit
    else None.

(** [main] in the recording world, for a configuration file, a file limit
    and the files of the pull request. *)
Definition logged_main (config : config_file) (limit : string)
  (files : list File.t) : Z * list string :=
  main (list string) fnmatch_plain (sample_environ limit)
    (fun w => (Returns config, logged w ("read config")))
    (fun w token repo => (Returns tt, logged w ("get_repo " ++ repo)))
    (fun w n => (Fetched (Pull.mk n "Add parser" None "octocat" 10 3 2),
                 logged w ("get_pull")))
    (fun w pr => (Fetched files, logged w ("get_files")))
    (fun w => (Fetched (Repo.mk "demo" (Some "Python")), logged w ("repository")))
    (fun w pr body => (Fetched tt, logged w ("comment")))
    unit (Returns tt)
    (fun w key url => (Returns (sample_system_template, sample_review_template),
                       logged w ("read prompts")))
    (fun key url model temp w system_prompt review_prompt =>
       (Returns ("MAJOR_ISSUES:" ++ NL ++ "- x"), logged w ("completion")))
    (fun w => ("2024-05-01 10:00:00 UTC", w))
    [].

(** * Properties *)

(** ** Lines of a string *)

Lemma split_not_nil (sep : ascii) (s : string) : split sep s <> [].
Proof.
  destruct s as [|c r]; simpl; [discriminate|].
  destruct (Ascii.eqb c sep); [discriminate|].
  destruct (split sep r); discriminate.
Qed.

Lemma join_cons (sep x : string) (l : list string) :
  l <> [] -> join sep (x :: l) = x ++ sep ++ join sep l.
Proof. destruct l; [congruence | reflexivity]. Qed.

Lemma string_app_assoc (a b c : string) : (a ++ b) ++ c = a ++ (b ++ c).
Proof. induction a; simpl; congruence. Qed.

Lemma join_app (sep : string) (l1 l2 : list string) :
  l1 <> [] -> l2 <> [] ->
  join sep (l1 ++ l2) = join sep l1 ++ sep ++ join sep l2.
Proof.
  induction l1 as [|x l1 IH]; intros H1 H2; [congruence|].
  destruct l1 as [|y l1].
  - simpl app. now rewrite join_cons.
  - change ((x :: y :: l1) ++ l2)%list with (x :: ((y :: l1) ++ l2))%list.
    rewrite join_cons by discriminate.
    rewrite IH by (discriminate || assumption).
    rewrite (join_cons sep x (y :: l1)) by discriminate.
    now rewrite !string_app_assoc.
Qed.

(** Joining the lines of a string with the separator gives it back. *)
Lemma join_split (sep : ascii) (s : string) :
  join (String sep EmptyString) (split sep s) = s.
Proof.
  induction s as [|c r IH]; [reflexivity|].
  simpl split. destruct (Ascii.eqb_spec c sep) as [->|Hne].
  - rewrite join_cons by apply split_not_nil. simpl. now rewrite IH.
  - pose proof (split_not_nil sep r) as Hnil.
    destruct (split sep r) as [|h t]; [congruence|].
    destruct t as [|h' t].
    + simpl in *. congruence.
    + rewrite (join_cons _ (String c h)) by discriminate.
      rewrite (join_cons _ h) in IH by discriminate.
      change (String c h ++ String sep "" ++ join (String sep "") (h' :: t))
        with (String c (h ++ String sep "" ++ join (String sep "") (h' :: t))).
      now rewrite IH.
Qed.

Lemma concat_not_nil {A} (g : list A) (gs : list (list A)) :
  g <> [] -> List.concat (g :: gs) <> [].
Proof. destruct g; simpl; [congruence | discriminate]. Qed.

(** Joining joined groups is joining their concatenation, as long as no
    group is empty. *)
Lemma join_concat (sep : string) (groups : list (list string)) :
  Forall (fun g => g <> []) groups ->
  join sep (map (join sep) groups) = join sep (List.concat groups).
Proof.
  induction 1 as [|g gs Hg Hgs IH]; [reflexivity|].
  destruct gs as [|g' gs].
  - simpl. now rewrite app_nil_r.
  - change (map (join sep) (g :: g' :: gs))
      with (join sep g :: map (join sep) (g' :: gs)).
    rewrite join_cons by discriminate.
    rewrite IH. change (List.concat (g :: g' :: gs)) with (g ++ List.concat (g' :: gs))%list.
    rewrite join_app; auto.
    apply concat_not_nil. now inversion Hgs.
Qed.

Lemma startswith_app (p s t : string) :
  startswith p s = true -> startswith p (s ++ t) = true.
Proof.
  revert s. induction p as [|a p IH]; intros [|b s]; simpl; auto; try discriminate.
  intros H. apply andb_true_iff in H as [-> H]. simpl. now apply IH.
Qed.

Lemma startswith_join (p sep l : string) (t : list string) :
  startswith p l = true -> startswith p (join sep (l :: t)) = true.
Proof.
  intros H. destruct t; [exact H|].
  rewrite join_cons by discriminate. now apply startswith_app.
Qed.

(** ** Patch splitting *)

Lemma hunk_loop_groups lines : forall groups current,
  hunk_loop lines (map (join NL) groups) current =
  (map (join NL) (fst (group_loop lines groups current)),
   snd (group_loop lines groups current)).
Proof.
  induction lines as [|line rest IH]; intros groups current; [reflexivity|].
  cbn [hunk_loop group_loop]. unfold is_marker.
  destruct (startswith "@@" line && nonempty current).
  - rewrite <- IH. rewrite map_app. reflexivity.
  - apply IH.
Qed.

Lemma count_markers_cons (line : string) (rest : list string) :
  count_markers (line :: rest) =
  (if is_marker line then 1 else 0) + count_markers rest.
Proof.
  unfold count_markers. cbn [filter]. now destruct (is_marker line).
Qed.

Lemma tl_app_cons {A} (l : list A) (x : A) :
  l <> [] -> tl (l ++ [x]) = (tl l ++ [x])%list.
Proof. destruct l; [congruence | reflexivity]. Qed.

Lemma hd_app_cons {A} (d : A) (l : list A) (x : A) :
  l <> [] -> hd d (l ++ [x]) = hd d l.
Proof. destruct l; [congruence | reflexivity]. Qed.

Lemma group_loop_ok lines : forall groups current,
  current <> [] ->
  hunks_ok (groups ++ [current]) ->
  let r := group_loop lines groups current in
  snd r <> [] /\
  hunks_ok (fst r ++ [snd r]) /\
  List.concat (fst r ++ [snd r]) = (List.concat (groups ++ [current]) ++ lines)%list /\
  List.length (fst r ++ [snd r]) =
    List.length (groups ++ [current]) + count_markers lines.
Proof.
  induction lines as [|line rest IH]; intros groups current Hcur Hok; simpl.
  - split; [assumption|]. split; [assumption|].
    split; [now rewrite app_nil_r | unfold count_markers; simpl; lia].
  - destruct current as [|c0 cur]; [congruence|]. simpl nonempty.
    rewrite andb_true_r. unfold count_markers. simpl filter.
    destruct (is_marker line) eqn:Hm.
    + destruct (IH (groups ++ [c0 :: cur])%list [line]) as (H1 & H2 & H3 & H4).
      * discriminate.
      * destruct Hok as [Hn Hi Hh]. split.
        -- apply Forall_app; split; [exact Hn|].
           constructor; [discriminate | constructor].
        -- apply Forall_app; split; [exact Hi|].
           constructor; [constructor | constructor].
        -- rewrite tl_app_cons by (destruct groups; discriminate).
           apply Forall_app; split; [exact Hh|].
           constructor; [exact Hm | constructor].
      * split; [assumption|]. split; [assumption|]. split.
        -- rewrite H3. rewrite !concat_app. cbn [List.concat].
           rewrite !app_nil_r. rewrite <- !app_assoc. reflexivity.
        -- rewrite H4. rewrite !length_app. simpl. unfold count_markers. lia.
    + destruct (IH groups ((c0 :: cur) ++ [line])%list) as (H1 & H2 & H3 & H4).
      * discriminate.
      * destruct Hok as [Hn Hi Hh].
        apply Forall_app in Hn as [Hn1 Hn2].
        apply Forall_app in Hi as [Hi1 Hi2].
        split.
        -- apply Forall_app; split; [exact Hn1|].
           constructor; [discriminate | constructor].
        -- apply Forall_app; split; [exact Hi1|].
           constructor; [|constructor].
           simpl. apply Forall_app; split.
           ++ now inversion Hi2.
           ++ constructor; [exact Hm | constructor].
        -- destruct groups as [|g0 gs]; [constructor|].
           cbn [tl app] in *. apply Forall_app in Hh as [Hh1 Hh2].
           apply Forall_app; split; [exact Hh1|].
           constructor; [|constructor].
           inversion Hh2 as [|? ? Hc ?]. exact Hc.
      * split; [assumption|]. split; [assumption|]. split.
        -- rewrite H3. rewrite !concat_app. cbn [List.concat].
           rewrite !app_nil_r. rewrite <- !app_assoc. reflexivity.
        -- rewrite H4. rewrite !length_app. simpl. unfold count_markers. lia.
Qed.

(** The hunks, as lists of lines, of a non-empty list of lines. *)
Lemma group_loop_from_start (line : string) (rest : list string) :
  let r := group_loop (line :: rest) [] [] in
  snd r <> [] /\
  hunks_ok (fst r ++ [snd r]) /\
  List.concat (fst r ++ [snd r]) = line :: rest /\
  List.length (fst r ++ [snd r]) = 1 + count_markers rest /\
  hd "" (List.concat (fst r ++ [snd r])) = line.
Proof.
  simpl. rewrite andb_false_r. simpl app.
  destruct (group_loop_ok rest [] [line]) as (H1 & H2 & H3 & H4).
  - discriminate.
  - split; simpl; repeat constructor; discriminate.
  - split; [assumption|]. split; [assumption|].
    split; [exact H3|]. split; [exact H4|]. now rewrite H3.
Qed.

Lemma nonempty_true {A} (l : list A) : l <> [] -> nonempty l = true.
Proof. destruct l; [congruence | reflexivity]. Qed.

Lemma split_large_patch_above (patch : string) (max_lines : Z) :
  (max_lines < Z.of_nat (List.length (split nl patch)))%Z ->
  split_large_patch patch max_lines =
  map (join NL) (hunk_groups (split nl patch)).
Proof.
  intros Hlt. unfold split_large_patch, hunk_groups.
  destruct (Z.leb_spec (Z.of_nat (List.length (split nl patch))) max_lines);
    [lia|].
  change (@nil string) with (map (join NL) []) at 1.
  rewrite hunk_loop_groups.
  destruct (nonempty (snd (group_loop (split nl patch) [] []))).
  - now rewrite map_app.
  - reflexivity.
Qed.

Lemma hunk_groups_spec (lines : list string) :
  lines <> [] ->
  hunks_ok (hunk_groups lines) /\
  List.concat (hunk_groups lines) = lines /\
  List.length (hunk_groups lines) = 1 + count_markers (tl lines).
Proof.
  destruct lines as [|line rest]; [congruence|]. intros _.
  destruct (group_loop_from_start line rest) as (H1 & H2 & H3 & H4 & _).
  unfold hunk_groups. rewrite (nonempty_true _ H1). auto.
Qed.

Lemma all_segments_start (groups : list (list string)) :
  Forall (fun g => g <> []) groups ->
  Forall (fun g => is_marker (hd "" g) = true) groups ->
  Forall (fun seg => startswith "@@" seg = true) (map (join NL) groups).
Proof.
  intros Hn Hh. apply Forall_map. apply Forall_forall. intros g Hg.
  pose proof (proj1 (Forall_forall _ _) Hn g Hg) as Hne.
  pose proof (proj1 (Forall_forall _ _) Hh g Hg) as Hm.
  destruct g as [|l t]; [congruence|]. now apply startswith_join.
Qed.

(** C10. Joining the segments returned by [split_large_patch] with a
    single newline between consecutive segments gives back the patch, for
    every patch and every maximum line count: no line is lost, repeated or
    moved. *)
Theorem split_large_patch_join (patch : string) (max_lines : Z) :
  join NL (split_large_patch patch max_lines) = patch.
Proof.
  destruct (Z.leb_spec (Z.of_nat (List.length (split nl patch))) max_lines)
    as [Hle|Hlt].
  - unfold split_large_patch.
    now rewrite (proj2 (Z.leb_le _ _) Hle).
  - rewrite split_large_patch_above by exact Hlt.
    destruct (hunk_groups_spec (split nl patch) (split_not_nil nl patch))
      as ([Hn _ _] & Hc & _).
    rewrite join_concat by exact Hn.
    rewrite Hc. apply join_split.
Qed.

(** C4, as stated, fails: a patch of 250 lines with three marker lines
    and a header line before the first of them is split, with a maximum
    of 100 lines, into four segments, the first of which does not start
    with the marker. *)
Lemma split_large_patch_header_four_segments :
  ~ (forall patch : string,
       List.length (split nl patch) = 250 ->
       count_markers (split nl patch) = 3 ->
       List.length (split_large_patch patch 100) = 3 /\
       Forall (fun seg => startswith "@@" seg = true)
         (split_large_patch patch 100)).
Proof.
  intros H.
  destruct (H patch_with_header) as [Hlen _]; [reflexivity | reflexivity |].
  vm_compute in Hlen. discriminate.
Qed.

(** C4 (amended). A patch with at most [max_lines] lines is returned
    alone and unchanged.  A longer one is cut into hunks: the segments are
    the joined hunks, the hunks put end to end are the lines of the patch,
    no hunk is empty, a marker line occurs in a hunk only as its first
    line, every hunk after the first begins with a marker line, and there
    is one hunk more than there are marker lines after the first line; so
    whatever precedes the first marker is a segment of its own.  A patch
    of 250 lines with three marker lines, the first line being one of
    them, is split with a maximum of 100 into exactly three segments,
    each starting with the marker. *)
Theorem split_large_patch_hunks (patch : string) (max_lines : Z) :
  let lines := split nl patch in
  ((Z.of_nat (List.length lines) <= max_lines)%Z ->
   split_large_patch patch max_lines = [patch]) /\
  ((max_lines < Z.of_nat (List.length lines))%Z ->
   exists groups : list (list string),
     split_large_patch patch max_lines = map (join NL) groups /\
     List.concat groups = lines /\
     Forall (fun g => g <> []) groups /\
     Forall (fun g => Forall (fun l => startswith "@@" l = false) (tl g))
       groups /\
     Forall (fun g => startswith "@@" (hd "" g) = true) (tl groups) /\
     List.length groups = 1 + count_markers (tl lines)) /\
  (List.length lines = 250 ->
   count_markers lines = 3 ->
   startswith "@@" (hd "" lines) = true ->
   List.length (split_large_patch patch 100) = 3 /\
   Forall (fun seg => startswith "@@" seg = true)
     (split_large_patch patch 100)).
Proof.
  intros lines.
  assert (Hspec := hunk_groups_spec lines (split_not_nil nl patch)).
  destruct Hspec as ([Hn Hi Hh] & Hc & Hlen).
  split; [|split].
  - intros Hle. unfold split_large_patch. fold lines.
    now rewrite (proj2 (Z.leb_le _ _) Hle).
  - intros Hlt. exists (hunk_groups lines).
    split; [now apply split_large_patch_above|]. auto.
  - intros H250 H3 Hfirst.
    rewrite split_large_patch_above by (fold lines; lia). fold lines.
    assert (Hcount : count_markers (tl lines) = 2).
    { destruct lines as [|l0 rest]; [discriminate|].
      rewrite count_markers_cons in H3. cbn [hd tl] in *.
      unfold is_marker in H3 at 1. rewrite Hfirst in H3. lia. }
    split; [rewrite length_map; lia|].
    apply all_segments_start; [exact Hn|].
    destruct (hunk_groups lines) as [|g0 gs] eqn:Hg; [constructor|].
    constructor; [|exact Hh].
    inversion Hn as [|? ? Hg0 _]; subst.
    destruct g0 as [|l t]; [congruence|].
    cbn [List.concat app] in Hc.
    destruct lines as [|l0 rest]; [discriminate|].
    injection Hc as -> _. exact Hfirst.
Qed.

(** The amended C4 at a patch of three hunks and 250 lines. *)
Lemma split_large_patch_hunks_witness :
  List.length (split_large_patch patch_three_hunks 100) = 3 /\
  Forall (fun seg => startswith "@@" seg = true)
    (split_large_patch patch_three_hunks 100).
Proof.
  apply (split_large_patch_hunks patch_three_hunks 100); reflexivity.
Defined.

(** ** Chunking *)

Section ChunkerFacts.

Variable fnmatch : string -> string -> bool.
Variable skip_patterns : list string.

Lemma chunk_loop_filter (pr_title pr_description : string) (files : list File.t) :
  forall chunks,
    chunk_loop fnmatch skip_patterns files pr_title pr_description chunks =
    (chunks ++ map (chunk_of pr_title pr_description)
                 (filter (reviewable fnmatch skip_patterns) files))%list.
Proof.
  induction files as [|file rest IH]; intros chunks; cbn [chunk_loop filter].
  - cbn [map]. now rewrite app_nil_r.
  - destruct (should_skip_file fnmatch (File.filename file) skip_patterns)
      eqn:Hs.
    { replace (reviewable fnmatch skip_patterns file) with false
        by (unfold reviewable; now rewrite Hs).
      apply IH. }
    destruct (File.patch file) as [patch|] eqn:Hp.
    2:{ replace (reviewable fnmatch skip_patterns file) with false
          by (unfold reviewable; now rewrite Hs, Hp).
        apply IH. }
    destruct patch as [|c patch]; cbn [truthy negb].
    { replace (reviewable fnmatch skip_patterns file) with false
        by (unfold reviewable; now rewrite Hs, Hp).
      apply IH. }
    rewrite Z.ltb_antisym.
    destruct (get_changes file <=? 500)%Z eqn:Hc; cbn [negb].
    2:{ replace (reviewable fnmatch skip_patterns file) with false
          by (unfold reviewable; now rewrite Hs, Hp, Hc).
        apply IH. }
    replace (reviewable fnmatch skip_patterns file) with true
      by (unfold reviewable; now rewrite Hs, Hp, Hc).
    rewrite IH. cbn [map]. rewrite <- app_assoc. cbn [app].
    change (chunk_of pr_title pr_description file)
      with (make_chunk file (get_default (File.patch file) "")
              pr_title pr_description).
    rewrite Hp. reflexivity.
Qed.

End ChunkerFacts.

(** C1. The chunks are, in input order, those of the files that match no
    skip pattern, have a non-empty patch and at most 500 changed lines:
    the output is the image of that subsequence of the input.  A file
    with more than 500 changed lines is not among them. *)
Theorem chunk_pr_files_filter
  (fnmatch : string -> string -> bool) (skip_patterns : list string)
  (files : list File.t) (pr_title pr_description : string) :
  let kept := filter (reviewable fnmatch skip_patterns) files in
  chunk_pr_files fnmatch skip_patterns files pr_title pr_description =
    map (chunk_of pr_title pr_description) kept /\
  map Chunk.file_path
    (chunk_pr_files fnmatch skip_patterns files pr_title pr_description) =
    map File.filename kept /\
  (forall file, In file kept <->
     In file files /\
     should_skip_file fnmatch (File.filename file) skip_patterns = false /\
     (exists patch, File.patch file = Some patch /\ patch <> "") /\
     (get_changes file <= 500)%Z) /\
  (forall file, (get_changes file > 500)%Z -> ~ In file kept).
Proof.
  intros kept.
  assert (Hk : forall file, In file kept <->
     In file files /\
     should_skip_file fnmatch (File.filename file) skip_patterns = false /\
     (exists patch, File.patch file = Some patch /\ patch <> "") /\
     (get_changes file <= 500)%Z).
  { intros file. unfold kept. rewrite filter_In. unfold reviewable.
    rewrite !andb_true_iff, negb_true_iff, Z.leb_le.
    split.
    - intros (Hin & (Hs & Hp) & Hc). repeat split; auto.
      destruct (File.patch file) as [patch|]; [|discriminate].
      exists patch. split; [reflexivity|]. now destruct patch.
    - intros (Hin & Hs & (patch & Hp & Hne) & Hc). repeat split; auto.
      rewrite Hp. destruct patch; [congruence | reflexivity]. }
  split; [|split; [|split]].
  - unfold chunk_pr_files. now rewrite chunk_loop_filter.
  - unfold chunk_pr_files. rewrite chunk_loop_filter. cbn [app].
    rewrite map_map. reflexivity.
  - exact Hk.
  - intros file Hbig Hin. apply Hk in Hin. lia.
Qed.

(** C1 on six files: two pass, in their input order. *)
Lemma chunk_pr_files_filter_witness :
  map Chunk.file_path
    (chunk_pr_files fnmatch_plain ["*.min.js"; "dist/**"] sample_files "T" "D")
  = ["src/app.js"; "README.md"].
Proof.
  rewrite (proj1 (proj2 (chunk_pr_files_filter fnmatch_plain
                           ["*.min.js"; "dist/**"] sample_files "T" "D"))).
  reflexivity.
Defined.

(** ** Skip patterns and ancestor directories *)

(** What stripping with a set of characters does: everything removed
    belongs to the set, and what is left does not end (or begin) in it. *)
Lemma rstrip_by_spec (p : ascii -> bool) (s : string) :
  exists b, s = rstrip_by p s ++ b /\ all_chars p b = true /\
            not_in p (last_char (rstrip_by p s)).
Proof.
  induction s as [|c r (b & Hs & Hb & Hl)].
  - exists "". repeat split.
  - cbn [rstrip_by]. destruct (rstrip_by p r) as [|c' r'] eqn:Hr.
    + destruct (p c) eqn:Hc.
      * exists (String c b). cbn. rewrite Hc. simpl in Hs. subst r. auto.
      * exists b. cbn. simpl in Hs. subst r. auto.
    + exists b. split; [|split]; auto.
      cbn [append]. f_equal. exact Hs.
Qed.

Lemma lstrip_by_spec (p : ascii -> bool) (s : string) :
  exists a, s = a ++ lstrip_by p s /\ all_chars p a = true /\
            not_in p (first_char (lstrip_by p s)).
Proof.
  induction s as [|c r (a & Hs & Ha & Hf)].
  - exists "". repeat split.
  - cbn [lstrip_by]. destruct (p c) eqn:Hc.
    + exists (String c a). cbn. rewrite Hc. split; [now f_equal | auto].
    + exists "". cbn. auto.
Qed.

(** C6 (the code departs from it). The pattern matched against ancestor
    directories loses every trailing slash and star, not only a trailing
    ["/**"]: a default pattern ending in a single star is altered, and a
    file below [docs] is skipped by the pattern ["docs/"], which the
    stated transformation would leave unchanged and unmatched. *)
Theorem ancestor_pattern_strips_characters :
  ancestor_pattern "*.generated.*" = "*.generated." /\
  removesuffix "/**" "*.generated.*" = "*.generated.*" /\
  ancestor_pattern "docs/" = "docs" /\
  removesuffix "/**" "docs/" = "docs/" /\
  should_skip_file fnmatch_plain "docs/guide.py" ["docs/"] = true /\
  existsb (fun parent => fnmatch_plain parent (removesuffix "/**" "docs/"))
    (PurePath.parents "docs/guide.py") = false /\
  fnmatch_plain (PurePath.name "docs/guide.py") "docs/" = false /\
  fnmatch_plain "docs/guide.py" "docs/" = false.
Proof. repeat split; reflexivity. Qed.

(** What the code does for every pattern: the removed part consists of
    slashes and stars only and the result ends in neither. *)
Lemma ancestor_pattern_spec (pattern : string) :
  exists removed,
    pattern = ancestor_pattern pattern ++ removed /\
    all_chars (in_chars "/*") removed = true /\
    not_in (in_chars "/*") (last_char (ancestor_pattern pattern)).
Proof.
  destruct (rstrip_by_spec (in_chars "/**") pattern) as (b & Hs & Hb & Hl).
  exists b. unfold ancestor_pattern, rstrip_chars. split; [exact Hs|].
  split.
  - clear Hs Hl. induction b as [|c b IH]; [reflexivity|].
    cbn [all_chars] in *. apply andb_true_iff in Hb as [Hc Hb].
    rewrite IH by exact Hb. rewrite andb_true_r.
    cbn [in_chars] in *. now destruct (Ascii.eqb "/" c), (Ascii.eqb "*" c).
  - destruct (last_char (rstrip_by (in_chars "/**") pattern)) as [a|]; [|exact I].
    cbn [not_in in_chars] in *.
    now destruct (Ascii.eqb "/" a), (Ascii.eqb "*" a).
Qed.

(** ** Language detection *)

(** C9. The language is the entry of the fixed table for the lower-cased
    extension of the path, and ["Unknown"] when the table has no such
    entry or the name has no extension; two paths whose extensions differ
    only in case get the same language. *)
Theorem get_file_language_table :
  (forall file_path,
     get_file_language file_path =
     match dict_get (lower (PurePath.suffix file_path)) extension_map with
     | Some language => language
     | None => "Unknown"
     end) /\
  (forall file_path,
     dict_get (lower (PurePath.suffix file_path)) extension_map = None ->
     get_file_language file_path = "Unknown") /\
  (forall file_path,
     rfind "." (PurePath.name file_path) = None ->
     get_file_language file_path = "Unknown") /\
  (forall p q,
     lower (PurePath.suffix p) = lower (PurePath.suffix q) ->
     get_file_language p = get_file_language q) /\
  get_file_language "Main.JAVA" = "Java" /\
  get_file_language "noext" = "Unknown".
Proof.
  split; [reflexivity|]. split; [|split; [|split; [|split; reflexivity]]].
  - intros file_path H. unfold get_file_language. now rewrite H.
  - intros file_path H. unfold get_file_language, PurePath.suffix.
    now rewrite H.
  - intros p q H. unfold get_file_language. now rewrite H.
Qed.

(** C9 at a path whose name has no dot, and at two spellings of one
    extension. *)
Lemma get_file_language_table_witness :
  get_file_language "docs/Makefile" = "Unknown" /\
  get_file_language "a/Main.Java" = get_file_language "b/x.JAVA".
Proof.
  destruct get_file_language_table as (_ & _ & Hnone & Hcase & _).
  split; [apply Hnone | apply Hcase]; reflexivity.
Defined.

(** ** Reviewing *)

Lemma dict_get_some (name : string) (kwargs : list (string * string)) :
  existsb (String.eqb name) (map fst kwargs) = true ->
  exists v, dict_get name kwargs = Some v.
Proof.
  induction kwargs as [|[k v] rest IH]; cbn; [discriminate|].
  rewrite (String.eqb_sym name k).
  destruct (String.eqb k name); [eauto | exact IH].
Qed.

(** A template whose fields are all supplied is rendered. *)
Lemma format_returns (tpl : template) (kwargs : list (string * string)) :
  template_ok (map fst kwargs) tpl = true ->
  exists s, format tpl kwargs = Returns s.
Proof.
  induction tpl as [|[text|name] rest IH]; cbn [template_ok format]; intros H.
  - eauto.
  - destruct (IH H) as [s ->]. eauto.
  - apply andb_true_iff in H as [Hn Hr].
    destruct (dict_get_some _ _ Hn) as [v ->].
    destruct (IH Hr) as [s ->]. eauto.
Qed.

Section ReviewerFacts.

Variable world : Type.
Variable completions_create :
  world -> string -> string -> outcome string * world.
Variable system_prompt_template : template.
Variable review_prompt_template : template.

Lemma reviewed_shape project_info w chunks reviews w' :
  reviewed world completions_create system_prompt_template
    review_prompt_template project_info w chunks reviews w' ->
  List.length reviews = List.length chunks /\
  map Review.file_path reviews = map Chunk.file_path chunks.
Proof.
  induction 1 as [|? ? ? ? ? ? ? ? ? _ _ _ _ [IH1 IH2]
                  |? ? ? ? ? ? ? ? ? _ _ _ _ [IH1 IH2]]; cbn.
  - auto.
  - now rewrite IH1, IH2.
  - now rewrite IH1, IH2.
Qed.

Hypothesis system_template_ok :
  template_ok system_fields system_prompt_template = true.
Hypothesis review_template_ok :
  template_ok review_fields review_prompt_template = true.

Lemma review_loop_reviewed project_info chunks : forall w acc,
  exists reviews w',
    review_loop world completions_create system_prompt_template
      review_prompt_template w chunks project_info acc
    = (Returns (acc ++ reviews)%list, w') /\
    reviewed world completions_create system_prompt_template
    review_prompt_template project_info w chunks reviews w'.
Proof.
  induction chunks as [|chunk rest IH]; intros w acc; cbn [review_loop].
  - exists [], w. rewrite app_nil_r. split; [reflexivity | constructor].
  - unfold review_chunk.
    destruct (format_returns system_prompt_template (system_kwargs project_info)
                system_template_ok) as [sp Hsp].
    destruct (format_returns review_prompt_template (review_kwargs chunk)
                review_template_ok) as [rp Hrp].
    rewrite Hsp, Hrp.
    destruct (completions_create w sp rp) as [[text|e] w1] eqn:Hcall.
    + destruct (IH w1 (acc ++ [Review.mk (Chunk.file_path chunk)
                                 (Chunk.file_language chunk) text])%list)
        as (reviews & w2 & Hloop & Hrev).
      eexists (_ :: reviews), w2. rewrite Hloop, <- app_assoc. cbn [app].
      split; [reflexivity|]. eapply reviewed_text; eauto.
    + destruct (IH w1 (acc ++ [Review.mk (Chunk.file_path chunk)
                                 (Chunk.file_language chunk)
                                 ("Error reviewing " ++ Chunk.file_path chunk
                                  ++ ": " ++ e)])%list)
        as (reviews & w2 & Hloop & Hrev).
      eexists (_ :: reviews), w2. rewrite Hloop, <- app_assoc. cbn [app].
      split; [reflexivity|]. eapply reviewed_error; eauto.
Qed.

End ReviewerFacts.

(** C3. With prompt templates that use only the supported fields,
    [review_all_chunks] returns, for every list of chunks and every
    behaviour of the endpoint, one review per chunk in input order; a
    chunk whose completion call raised gets the text
    ["Error reviewing <path>: <failure>"] and the failure goes no
    further. *)
Theorem review_all_chunks_one_per_chunk
  (world : Type)
  (completions_create : world -> string -> string -> outcome string * world)
  (system_prompt_template review_prompt_template : template)
  (Hsys : template_ok system_fields system_prompt_template = true)
  (Hrev : template_ok review_fields review_prompt_template = true)
  (w : world) (chunks : list Chunk.t) (project_info : Project.t) :
  exists reviews w',
    review_all_chunks world completions_create system_prompt_template
      review_prompt_template w chunks project_info = (Returns reviews, w') /\
    List.length reviews = List.length chunks /\
    map Review.file_path reviews = map Chunk.file_path chunks /\
    reviewed world completions_create system_prompt_template
      review_prompt_template project_info w chunks reviews w'.
Proof.
  destruct (review_loop_reviewed world completions_create
              system_prompt_template review_prompt_template Hsys Hrev
              project_info chunks w [])
    as (reviews & w' & Hloop & Hr).
  exists reviews, w'. split; [exact Hloop|].
  destruct (reviewed_shape _ _ _ _ _ _ _ _ _ Hr) as [Hlen Hpaths].
  auto.
Qed.

(** C3 on two chunks, the second call failing. *)
Lemma review_all_chunks_one_per_chunk_witness :
  exists reviews w',
    review_all_chunks nat flaky_endpoint sample_system_template
      sample_review_template 0 sample_chunks (Project.mk (Some "demo") None None)
      = (Returns reviews, w') /\
    List.length reviews = List.length sample_chunks /\
    map Review.file_path reviews = map Chunk.file_path sample_chunks /\
    reviewed nat flaky_endpoint sample_system_template sample_review_template
      (Project.mk (Some "demo") None None) 0 sample_chunks reviews w'.
Proof.
  apply (review_all_chunks_one_per_chunk nat flaky_endpoint
           sample_system_template sample_review_template);
    reflexivity.
Defined.

(** The run of the witness, evaluated. *)
Example review_all_chunks_flaky :
  review_all_chunks nat flaky_endpoint sample_system_template
    sample_review_template 0 sample_chunks (Project.mk (Some "demo") None None)
  = (Returns
       [ Review.mk "a.py" "Python" ("MAJOR_ISSUES:" ++ NL ++ "- none");
         Review.mk "b.js" "JavaScript"
           "Error reviewing b.js: Connection error." ], 2).
Proof. reflexivity. Qed.

(** A template with a field the reviewer does not supply is not covered:
    rendering raises before the [try] and the failure reaches the
    caller. *)
Example review_all_chunks_unsupported_field :
  review_all_chunks nat flaky_endpoint sample_system_template
    [Field "guidelines"] 0 sample_chunks (Project.mk (Some "demo") None None)
  = (Raises "'guidelines'", 0).
Proof. reflexivity. Qed.

(** ** Parsing a review *)

Lemma header_of_none (line : string) :
  begins_with_header line = false <-> header_of line = None.
Proof.
  unfold begins_with_header, header_of, section_headers. cbn [existsb].
  destruct (startswith "PR_SUMMARY:" line),
           (startswith "MAJOR_ISSUES:" line),
           (startswith "MINOR_ISSUES:" line),
           (startswith "TEST_SUGGESTIONS:" line),
           (startswith "OVERALL_ASSESSMENT:" line);
    cbn; split; congruence.
Qed.

(** Without a header line no section is ever opened and the state stays
    as it was. *)
Lemma parse_lines_no_header (lines : list string) (st : parse_state) :
  current_section st = None ->
  Forall (fun raw => begins_with_header (strip raw) = false) lines ->
  fold_left parse_line lines st = st.
Proof.
  intros Hcur Hall. induction Hall as [|raw rest Hraw _ IH]; [reflexivity|].
  cbn [fold_left]. unfold parse_line at 2.
  rewrite (proj1 (header_of_none _) Hraw), Hcur. exact IH.
Qed.

(** C7. A text none of whose lines, trimmed as the parser trims them,
    begins with one of the five headers is parsed into the empty result:
    no key is present, so both scalar fields are absent and the three
    lists are empty.  Parsing is a function of the text alone and always
    returns: the same text gives the same result again. *)
Theorem parse_review_no_headers (review_text : string) :
  Forall (fun raw => begins_with_header (strip raw) = false)
    (split nl review_text) ->
  _parse_review review_text = empty_sections /\
  (forall key, sec_get key (_parse_review review_text) = None) /\
  truthy_text (sec_get PR_SUMMARY (_parse_review review_text)) = None /\
  truthy_text (sec_get OVERALL_ASSESSMENT (_parse_review review_text)) = None /\
  truthy_items (sec_get MAJOR_ISSUES (_parse_review review_text)) = [] /\
  truthy_items (sec_get MINOR_ISSUES (_parse_review review_text)) = [] /\
  truthy_items (sec_get TEST_SUGGESTIONS (_parse_review review_text)) = [] /\
  (forall again, again = review_text ->
     _parse_review again = _parse_review review_text).
Proof.
  intros Hall.
  assert (He : _parse_review review_text = empty_sections).
  { unfold _parse_review.
    rewrite (parse_lines_no_header _ (mk_state empty_sections None [])
               eq_refl Hall).
    reflexivity. }
  rewrite He. repeat split; try reflexivity.
  - now intros [].
  - now intros again ->.
Qed.

(** C7 on a text of two lines without header. *)
Lemma parse_review_no_headers_witness :
  _parse_review ("Looks fine to me." ++ NL ++ "  - nothing to add")
  = empty_sections.
Proof.
  refine (proj1 (parse_review_no_headers
                   ("Looks fine to me." ++ NL ++ "  - nothing to add") _)).
  vm_compute. repeat constructor.
Defined.

Lemma strip_by_spec (p : ascii -> bool) (s : string) :
  exists a b,
    s = a ++ strip_by p s ++ b /\
    all_chars p a = true /\ all_chars p b = true /\
    not_in p (first_char (strip_by p s)) /\
    not_in p (last_char (strip_by p s)).
Proof.
  destruct (lstrip_by_spec p s) as (a & Hs & Ha & Hf).
  destruct (rstrip_by_spec p (lstrip_by p s)) as (b & Hl & Hb & Hlast).
  exists a, b. unfold strip_by.
  split; [now rewrite <- Hl|]. repeat split; auto.
  destruct (rstrip_by p (lstrip_by p s)) as [|c r] eqn:Hr; [exact I|].
  rewrite Hl in Hf. exact Hf.
Qed.

Lemma all_chars_dash_space (s : string) :
  all_chars (in_chars "- ") s = true ->
  all_chars (fun c => Ascii.eqb c "-" || Ascii.eqb c " ") s = true.
Proof.
  induction s as [|c s IH]; [reflexivity|]. cbn [all_chars in_chars].
  intros H. apply andb_true_iff in H as [Hc Hs].
  rewrite (IH Hs), andb_true_r.
  rewrite (Ascii.eqb_sym c "-"), (Ascii.eqb_sym c " ").
  now rewrite orb_false_r in Hc.
Qed.

(** The three list-valued keys are rewritten from their committed text
    and the two scalar keys are left alone. *)
Lemma parse_lists_get (d : sections) (key : section_key) :
  sec_get key
    (fold_left parse_list [MAJOR_ISSUES; MINOR_ISSUES; TEST_SUGGESTIONS] d) =
  match key with
  | PR_SUMMARY | OVERALL_ASSESSMENT => sec_get key d
  | _ => match sec_get key d with
         | Some (Str text) => Some (Items (parse_items text))
         | other => other
         end
  end.
Proof.
  destruct d as [s [[ma|ma]|] [[mi|mi]|] [[te|te]|] o];
    destruct key; reflexivity.
Qed.

Lemma sec_set_only_text key text d :
  only_text d -> only_text (sec_set key (Str text) d).
Proof.
  intros H k items. specialize (H k items).
  destruct key, k; cbn in *; congruence.
Qed.

Lemma commit_only_text st :
  only_text (st_sections st) -> only_text (commit st).
Proof.
  intros H. unfold commit. destruct (current_section st); [|exact H].
  now apply sec_set_only_text.
Qed.

Lemma parse_lines_only_text lines : forall st,
  only_text (st_sections st) ->
  only_text (st_sections (fold_left parse_line lines st)).
Proof.
  induction lines as [|raw rest IH]; intros st H; [exact H|].
  cbn [fold_left]. apply IH. unfold parse_line.
  destruct (header_of (strip raw)).
  - cbn [st_sections]. now apply commit_only_text.
  - destruct (current_section st); [|exact H].
    destruct (truthy (strip raw)); exact H.
Qed.

Lemma committed_only_text (review_text : string) :
  only_text (committed_sections review_text).
Proof.
  apply commit_only_text, parse_lines_only_text.
  intros key items. destruct key; discriminate.
Qed.

(** C2, as stated, fails: a dash that opens or closes the remainder of
    a bullet line is removed with the bullet marker. *)
Lemma parse_review_drops_inner_dash :
  sec_get MAJOR_ISSUES (committed_sections inner_dash_review)
    = Some (Str "- -1 is returned on failure") /\
  sec_get MAJOR_ISSUES (_parse_review inner_dash_review)
    = Some (Items ["1 is returned on failure"]) /\
  map spec_bullet (filter is_bullet (split nl "- -1 is returned on failure"))
    = ["-1 is returned on failure"] /\
  sec_get MAJOR_ISSUES (_parse_review inner_dash_review) <>
  Some (Items (map spec_bullet
                 (filter is_bullet (split nl "- -1 is returned on failure")))).
Proof. repeat split; try reflexivity. vm_compute. discriminate. Qed.

(** C2 (amended). Under a list-valued key the parser keeps, in their
    order, the lines of the committed text whose trimmed form starts with
    a dash (none gives the empty list); from each kept line it removes
    every leading and trailing dash and space, then the surrounding
    whitespace, and leaves what lies between as it is. *)
Theorem parse_review_list_items (review_text : string) (key : section_key) :
  In key [MAJOR_ISSUES; MINOR_ISSUES; TEST_SUGGESTIONS] ->
  match sec_get key (committed_sections review_text) with
  | None => sec_get key (_parse_review review_text) = None
  | Some v =>
      exists text,
        v = Str text /\
        sec_get key (_parse_review review_text) =
          Some (Items (map clean_item (filter is_bullet (split nl text)))) /\
        (filter is_bullet (split nl text) = [] ->
         sec_get key (_parse_review review_text) = Some (Items []))
  end /\
  (forall item, exists a a' b' b,
     item = a ++ (a' ++ clean_item item ++ b') ++ b /\
     all_chars (fun c => Ascii.eqb c "-" || Ascii.eqb c " ") a = true /\
     all_chars (fun c => Ascii.eqb c "-" || Ascii.eqb c " ") b = true /\
     not_in (in_chars "- ") (first_char (a' ++ clean_item item ++ b')) /\
     not_in (in_chars "- ") (last_char (a' ++ clean_item item ++ b')) /\
     all_chars isspace a' = true /\ all_chars isspace b' = true /\
     not_in isspace (first_char (clean_item item)) /\
     not_in isspace (last_char (clean_item item))).
Proof.
  intros Hkey. split.
  - unfold _parse_review. fold (committed_sections review_text).
    rewrite parse_lists_get.
    pose proof (committed_only_text review_text key) as Honly.
    destruct (sec_get key (committed_sections review_text)) as [[text|items]|]
      eqn:Hget.
    + exists text. split; [reflexivity|].
      assert (Hlist : match key with
                      | PR_SUMMARY | OVERALL_ASSESSMENT => False
                      | _ => True
                      end).
      { destruct key; try exact I;
          cbn in Hkey; intuition discriminate. }
      destruct key; try contradiction; split; try reflexivity;
        intros Hnone; unfold parse_items; fold is_bullet;
        now rewrite Hnone.
    + exfalso. now apply (Honly items).
    + destruct key; reflexivity.
  - intros item.
    destruct (strip_by_spec (in_chars "- ") item)
      as (a & b & Hs & Ha & Hb & Hdf & Hdl).
    destruct (strip_by_spec isspace (strip_chars "- " item))
      as (a' & b' & Hs' & Ha' & Hb' & Hf & Hl).
    exists a, a', b', b. fold (strip_chars "- " item) in Hs, Hdf, Hdl.
    unfold clean_item, strip.
    split; [now rewrite <- Hs'|].
    rewrite <- Hs'.
    repeat split; auto using all_chars_dash_space.
Qed.

(** The amended C2 on a review with three bullet lines and a note. *)
Lemma parse_review_list_items_witness :
  In MINOR_ISSUES [MAJOR_ISSUES; MINOR_ISSUES; TEST_SUGGESTIONS] /\
  exists text,
    sec_get MINOR_ISSUES (committed_sections dashes_review) = Some (Str text) /\
    sec_get MINOR_ISSUES (_parse_review dashes_review) =
      Some (Items (map clean_item (filter is_bullet (split nl text)))).
Proof.
  assert (Hin : In MINOR_ISSUES [MAJOR_ISSUES; MINOR_ISSUES; TEST_SUGGESTIONS])
    by (right; left; reflexivity).
  split; [exact Hin|].
  destruct (parse_review_list_items dashes_review MINOR_ISSUES Hin) as [H _].
  destruct (sec_get MINOR_ISSUES (committed_sections dashes_review))
    as [v|] eqn:Hv; [|discriminate Hv].
  destruct H as (text & -> & Hget & _).
  exists text. split; [reflexivity | exact Hget].
Defined.

(** The same review, evaluated. *)
Example parse_review_dashes :
  sec_get MINOR_ISSUES (_parse_review dashes_review)
  = Some (Items ["rename x"; "use --dry-run"; "tabs"]).
Proof. reflexivity. Qed.

(** ** Rendering the report *)

Lemma comment_parts_report (timestamp : string) (pr_data : PR.t)
  (summaries major_issues minor_issues test_suggestions assessments
     : list string) :
  comment_parts timestamp pr_data summaries major_issues minor_issues
    test_suggestions assessments =
  report_parts timestamp pr_data major_issues minor_issues test_suggestions
    assessments.
Proof.
  unfold comment_parts, report_parts, extend_section, section_block.
  destruct major_issues, minor_issues, test_suggestions, assessments;
    cbn [nonempty negb andb];
    repeat rewrite <- app_assoc; cbn [app];
    repeat rewrite <- app_assoc; reflexivity.
Qed.

Lemma collect_no_items (reviews : list Review.t) : forall acc,
  Forall no_items reviews ->
  all_major_issues (fold_left collect_review reviews acc)
    = all_major_issues acc /\
  all_minor_issues (fold_left collect_review reviews acc)
    = all_minor_issues acc /\
  all_test_suggestions (fold_left collect_review reviews acc)
    = all_test_suggestions acc.
Proof.
  induction reviews as [|review rest IH]; intros acc Hall; [auto|].
  inversion Hall as [|? ? (Hma & Hmi & Hte) Hrest]; subst.
  cbn [fold_left]. destruct (IH (collect_review acc review) Hrest)
    as (-> & -> & ->).
  unfold collect_review.
  cbn [all_major_issues all_minor_issues all_test_suggestions].
  rewrite Hma, Hmi, Hte. cbn [map]. now rewrite !app_nil_r.
Qed.

(** C5. The report is the header, the Major Issues, Minor Issues, Test
    Suggestions and Overall Assessment sections, each present exactly
    when its list is not empty, the fixed block saying that no issues
    were found exactly when the first three lists are all empty, whatever
    the assessments, and the footer.  So when no review holds a major
    issue, a minor issue or a test suggestion, the report made from the
    reviews carries that block and none of the three sections. *)
Theorem build_comment_sections (timestamp : string) (pr_data : PR.t) :
  (forall summaries major_issues minor_issues test_suggestions assessments,
     _build_comment timestamp pr_data summaries major_issues minor_issues
       test_suggestions assessments =
     join NL (report_parts timestamp pr_data major_issues minor_issues
                test_suggestions assessments)) /\
  (forall assessments,
     report_parts timestamp pr_data [] [] [] assessments =
     (header_block pr_data timestamp
      ++ section_block assessment_heading assessments
      ++ no_issues_block ++ footer_block)%list) /\
  (forall heading items, section_block heading items = [] <-> items = []) /\
  (forall heading items,
     items <> [] ->
     section_block heading items = (heading :: "" :: items ++ [""])%list) /\
  (forall reviews,
     Forall no_items reviews ->
     aggregate_reviews timestamp reviews pr_data =
     join NL (header_block pr_data timestamp
              ++ section_block assessment_heading
                   (all_assessments (collect reviews))
              ++ no_issues_block ++ footer_block)).
Proof.
  split; [|split; [|split; [|split]]].
  - intros. unfold _build_comment. now rewrite comment_parts_report.
  - reflexivity.
  - intros heading [|item items]; cbn; split; congruence.
  - intros heading [|item items] H; [congruence | reflexivity].
  - intros reviews Hall. unfold aggregate_reviews, _build_comment.
    rewrite comment_parts_report.
    destruct (collect_no_items reviews (mk_collected [] [] [] [] []) Hall)
      as (Hma & Hmi & Hte).
    unfold collect. rewrite Hma, Hmi, Hte. reflexivity.
Qed.

(** C5 on two reviews without issues, one of them with an assessment. *)
Lemma build_comment_sections_witness :
  aggregate_reviews "2024-05-01 10:00:00 UTC" praise_reviews sample_pr =
  join NL (header_block sample_pr "2024-05-01 10:00:00 UTC"
           ++ [assessment_heading; ""; "Good to merge"; ""]
           ++ no_issues_block ++ footer_block).
Proof.
  rewrite (proj2 (proj2 (proj2 (proj2
             (build_comment_sections "2024-05-01 10:00:00 UTC" sample_pr))))
             praise_reviews).
  - reflexivity.
  - repeat constructor.
Defined.

(** C8. The report does not depend on the collected summaries: two calls
    of the report builder that differ only in that list return the same
    text, and so do two aggregations whose reviews yield the same issues,
    suggestions and assessments. *)
Theorem build_comment_ignores_summaries (timestamp : string) (pr_data : PR.t) :
  (forall summaries summaries' major_issues minor_issues test_suggestions
          assessments,
     _build_comment timestamp pr_data summaries major_issues minor_issues
       test_suggestions assessments =
     _build_comment timestamp pr_data summaries' major_issues minor_issues
       test_suggestions assessments) /\
  (forall reviews reviews',
     all_major_issues (collect reviews) = all_major_issues (collect reviews') ->
     all_minor_issues (collect reviews) = all_minor_issues (collect reviews') ->
     all_test_suggestions (collect reviews)
       = all_test_suggestions (collect reviews') ->
     all_assessments (collect reviews) = all_assessments (collect reviews') ->
     aggregate_reviews timestamp reviews pr_data =
     aggregate_reviews timestamp reviews' pr_data).
Proof.
  split.
  - intros. unfold _build_comment. now rewrite !comment_parts_report.
  - intros reviews reviews' Hma Hmi Hte Has. unfold aggregate_reviews.
    unfold _build_comment. rewrite !comment_parts_report.
    now rewrite Hma, Hmi, Hte, Has.
Qed.

(** C8 on two runs whose reviews differ in the summary only. *)
Lemma build_comment_ignores_summaries_witness :
  all_summaries (collect (summary_reviews "Adds a parser"))
    <> all_summaries (collect (summary_reviews "Rewrites the lexer")) /\
  aggregate_reviews "2024-05-01 10:00:00 UTC"
    (summary_reviews "Adds a parser") sample_pr =
  aggregate_reviews "2024-05-01 10:00:00 UTC"
    (summary_reviews "Rewrites the lexer") sample_pr.
Proof.
  split; [vm_compute; discriminate|].
  apply (proj2 (build_comment_ignores_summaries
                  "2024-05-01 10:00:00 UTC" sample_pr)); reflexivity.
Defined.

(** * Further properties *)

(** ** Stripping, splitting and joining *)

Lemma lstrip_by_id (p : ascii -> bool) (s : string) :
  not_in p (first_char s) -> lstrip_by p s = s.
Proof. destruct s as [|c r]; cbn; [reflexivity|]. now intros ->. Qed.

Lemma rstrip_by_id (p : ascii -> bool) (s : string) :
  not_in p (last_char s) -> rstrip_by p s = s.
Proof.
  induction s as [|c r IH]; [reflexivity|].
  destruct r as [|c' r'].
  - cbn. now intros ->.
  - intros H. change (last_char (String c (String c' r')))
      with (last_char (String c' r')) in H.
    cbn [rstrip_by] in *. now rewrite (IH H).
Qed.

Lemma strip_by_id (p : ascii -> bool) (s : string) :
  not_in p (first_char s) -> not_in p (last_char s) -> strip_by p s = s.
Proof.
  intros Hf Hl. unfold strip_by. rewrite (lstrip_by_id p s Hf).
  now apply rstrip_by_id.
Qed.

Lemma strip_by_idem (p : ascii -> bool) (s : string) :
  strip_by p (strip_by p s) = strip_by p s.
Proof.
  destruct (strip_by_spec p s) as (_ & _ & _ & _ & _ & Hf & Hl).
  now apply strip_by_id.
Qed.

Lemma strip_idem (s : string) : strip (strip s) = strip s.
Proof. apply strip_by_idem. Qed.

Lemma all_chars_app (p : ascii -> bool) (a b : string) :
  all_chars p (a ++ b) = all_chars p a && all_chars p b.
Proof.
  induction a as [|c a IH]; [reflexivity|].
  cbn. now rewrite IH, andb_assoc.
Qed.

(** What is left after stripping is made of characters of the string. *)
Lemma all_chars_strip_by (q p : ascii -> bool) (s : string) :
  all_chars q s = true -> all_chars q (strip_by p s) = true.
Proof.
  destruct (strip_by_spec p s) as (a & b & Hs & _).
  intros H. rewrite Hs in H. rewrite !all_chars_app in H.
  apply andb_true_iff in H as [_ H]. now apply andb_true_iff in H as [H _].
Qed.

Lemma split_app_sep (c : ascii) (a b : string) :
  split c (a ++ String c b) = (split c a ++ split c b)%list.
Proof.
  induction a as [|x a IH].
  - cbn. now rewrite Ascii.eqb_refl.
  - cbn [append split]. rewrite IH.
    destruct (Ascii.eqb x c); [reflexivity|].
    pose proof (split_not_nil c a) as Hn.
    destruct (split c a) as [|h t]; [congruence | reflexivity].
Qed.

Lemma split_no_sep (c : ascii) (s : string) :
  all_chars (fun x => negb (Ascii.eqb x c)) s = true -> split c s = [s].
Proof.
  induction s as [|x s IH]; [reflexivity|]. cbn [all_chars split].
  intros H. apply andb_true_iff in H as [Hx Hs].
  apply negb_true_iff in Hx. now rewrite Hx, (IH Hs).
Qed.

Lemma split_lines_no_sep (c : ascii) (s : string) :
  Forall (fun l => all_chars (fun x => negb (Ascii.eqb x c)) l = true)
    (split c s).
Proof.
  induction s as [|x s IH]; [repeat constructor|].
  cbn [split]. destruct (Ascii.eqb x c) eqn:Hx.
  - constructor; [reflexivity | exact IH].
  - destruct (split c s) as [|h t]; [repeat constructor; cbn; now rewrite Hx|].
    inversion IH as [|? ? Hh Ht]; subst.
    constructor; [cbn; now rewrite Hx, Hh | exact Ht].
Qed.

(** Splitting the join of lines that hold no separator gives the lines
    back. *)
Lemma split_join (c : ascii) (lines : list string) :
  lines <> [] ->
  Forall (fun l => all_chars (fun x => negb (Ascii.eqb x c)) l = true) lines ->
  split c (join (String c EmptyString) lines) = lines.
Proof.
  induction lines as [|x lines IH]; [congruence|]. intros _ Hall.
  inversion Hall as [|? ? Hx Hrest]; subst.
  destruct lines as [|y lines].
  - now apply split_no_sep.
  - rewrite join_cons by discriminate.
    change (x ++ String c "" ++ join (String c "") (y :: lines))
      with (x ++ String c (join (String c "") (y :: lines))).
    rewrite split_app_sep, (split_no_sep c x Hx), IH; [reflexivity| |exact Hrest].
    discriminate.
Qed.

Lemma first_char_app (a b : string) :
  a <> "" -> first_char (a ++ b) = first_char a.
Proof. destruct a; [congruence | reflexivity]. Qed.

Lemma last_char_app (a b : string) :
  b <> "" -> last_char (a ++ b) = last_char b.
Proof.
  intros Hb. induction a as [|c a IH]; [reflexivity|].
  cbn [append]. destruct (a ++ b) as [|c' r] eqn:Hab.
  - destruct a; cbn in Hab; [congruence | discriminate].
  - cbn [last_char]. exact IH.
Qed.

Lemma first_char_some_not_empty (s : string) (c : ascii) :
  first_char s = Some c -> s <> "".
Proof. destruct s; [discriminate | discriminate]. Qed.

Lemma first_char_join (sep x : string) (rest : list string) :
  x <> "" -> first_char (join sep (x :: rest)) = first_char x.
Proof.
  intros Hx. destruct rest; [reflexivity|].
  rewrite join_cons by discriminate. now apply first_char_app.
Qed.

Lemma join_not_empty (sep x : string) (rest : list string) :
  x <> "" -> join sep (x :: rest) <> "".
Proof.
  intros Hx H. pose proof (first_char_join sep x rest Hx) as Hf.
  rewrite H in Hf. destruct x; [congruence | discriminate].
Qed.

Lemma last_char_join (sep : string) (lines : list string) :
  lines <> [] -> Forall (fun l => l <> "") lines ->
  last_char (join sep lines) = last_char (List.last lines "").
Proof.
  induction lines as [|x lines IH]; [congruence|]. intros _ Hall.
  inversion Hall as [|? ? Hx Hrest]; subst.
  destruct lines as [|y lines]; [reflexivity|].
  rewrite join_cons by discriminate.
  assert (Hj : join sep (y :: lines) <> "").
  { apply join_not_empty. now inversion Hrest. }
  rewrite last_char_app.
  - rewrite last_char_app by exact Hj.
    rewrite IH by (discriminate || exact Hrest). reflexivity.
  - destruct sep; cbn; [exact Hj | discriminate].
Qed.

(** ** The line loop of the parser *)

Lemma parse_line_strip (st : parse_state) (raw : string) :
  parse_line st (strip raw) = parse_line st raw.
Proof. unfold parse_line. now rewrite strip_idem. Qed.

Lemma parse_line_blank (st : parse_state) (raw : string) :
  strip raw = "" -> parse_line st raw = st.
Proof.
  intros H. unfold parse_line. rewrite H. cbn.
  now destruct (current_section st).
Qed.

Lemma truthy_false (s : string) : truthy s = false -> s = "".
Proof. destruct s; [reflexivity | discriminate]. Qed.

(** The loop sees a text only through its trimmed, non-empty lines. *)
Lemma parse_lines_significant (lines : list string) : forall st,
  fold_left parse_line lines st =
  fold_left parse_line (filter truthy (map strip lines)) st.
Proof.
  induction lines as [|raw rest IH]; intros st; [reflexivity|].
  cbn [map filter fold_left]. destruct (truthy (strip raw)) eqn:Ht.
  - cbn [fold_left]. rewrite parse_line_strip. apply IH.
  - rewrite (parse_line_blank st raw (truthy_false _ Ht)). apply IH.
Qed.

Lemma parse_review_fold (review_text : string) :
  _parse_review review_text =
  fold_left parse_list [MAJOR_ISSUES; MINOR_ISSUES; TEST_SUGGESTIONS]
    (commit (fold_left parse_line (significant_lines review_text)
               initial_state)).
Proof.
  unfold _parse_review, significant_lines, initial_state.
  now rewrite <- parse_lines_significant.
Qed.

(** X1. Indentation, trailing whitespace and blank lines do not matter:
    two texts with the same trimmed non-empty lines are parsed alike. *)
Theorem parse_review_significant_lines (text text' : string) :
  significant_lines text = significant_lines text' ->
  _parse_review text = _parse_review text'.
Proof. intros H. now rewrite !parse_review_fold, H. Qed.

(** X1 at a concrete input. *)
Lemma parse_review_significant_lines_witness :
  _parse_review ("  MAJOR_ISSUES:  " ++ NL ++ NL ++ "	- a  " ++ NL)
  = _parse_review ("MAJOR_ISSUES:" ++ NL ++ "- a").
Proof. apply parse_review_significant_lines. reflexivity. Defined.

(** X2. Whatever precedes the first header line is ignored. *)
Theorem parse_review_preamble (preamble rest : string) :
  Forall (fun raw => begins_with_header (strip raw) = false)
    (split nl preamble) ->
  _parse_review (preamble ++ NL ++ rest) = _parse_review rest.
Proof.
  intros Hpre. unfold _parse_review.
  change (preamble ++ NL ++ rest) with (preamble ++ String nl rest).
  rewrite split_app_sep, fold_left_app.
  now rewrite (parse_lines_no_header _ (mk_state empty_sections None [])
                 eq_refl Hpre).
Qed.

(** X2 at a concrete input. *)
Lemma parse_review_preamble_witness :
  _parse_review ("Here is my review." ++ NL ++ "- a stray bullet" ++ NL
                 ++ "MINOR_ISSUES:" ++ NL ++ "- b")
  = _parse_review ("MINOR_ISSUES:" ++ NL ++ "- b").
Proof.
  apply (parse_review_preamble
           ("Here is my review." ++ NL ++ "- a stray bullet")
           ("MINOR_ISSUES:" ++ NL ++ "- b")).
  vm_compute. repeat constructor.
Defined.

(** Stripping on the right leaves a prefix that does not end in the
    set. *)
Lemma rstrip_by_app_keep (p : ascii -> bool) (h rest : string) :
  h <> "" -> not_in p (last_char h) ->
  exists r, rstrip_by p (h ++ rest) = h ++ r.
Proof.
  induction h as [|c h IH]; [congruence|]. intros _ Hl.
  destruct h as [|c' h'].
  - cbn in Hl. cbn [append rstrip_by]. exists (rstrip_by p rest).
    destruct (rstrip_by p rest); [now rewrite Hl | reflexivity].
  - destruct IH as [r Hr]; [discriminate | exact Hl |].
    exists r. cbn [append rstrip_by] in *. now rewrite Hr.
Qed.

Lemma strip_header_app (key : section_key) (rest : string) :
  exists r, strip (header_text key ++ rest) = header_text key ++ r.
Proof.
  unfold strip, strip_by.
  rewrite lstrip_by_id by (destruct key; reflexivity).
  apply rstrip_by_app_keep; destruct key; (discriminate || reflexivity).
Qed.

Lemma header_of_header_app (key : section_key) (r : string) :
  header_of (header_text key ++ r) = Some key.
Proof. destruct key; reflexivity. Qed.

(** A line that begins with a header opens the section and nothing else
    of the line is kept. *)
Lemma parse_line_header (st : parse_state) (key : section_key) (rest : string) :
  parse_line st (header_text key ++ rest) = mk_state (commit st) (Some key) [].
Proof.
  unfold parse_line. destruct (strip_header_app key rest) as [r ->].
  now rewrite header_of_header_app.
Qed.

(** X3. What follows a header on its own line is dropped: the text of a
    section starts on the next line. *)
Theorem parse_review_header_remainder
  (before : string) (key : section_key) (rest after : string) :
  all_chars not_nl rest = true ->
  _parse_review (before ++ NL ++ (header_text key ++ rest) ++ NL ++ after) =
  _parse_review (before ++ NL ++ header_text key ++ NL ++ after).
Proof.
  intros Hrest. unfold _parse_review.
  change (before ++ NL ++ (header_text key ++ rest) ++ NL ++ after)
    with (before ++ String nl ((header_text key ++ rest) ++ String nl after)).
  change (before ++ NL ++ header_text key ++ NL ++ after)
    with (before ++ String nl (header_text key ++ String nl after)).
  rewrite !split_app_sep, !fold_left_app.
  assert (Hh : all_chars (fun x => negb (Ascii.eqb x nl)) (header_text key) = true)
    by (destruct key; reflexivity).
  rewrite (split_no_sep nl (header_text key) Hh).
  rewrite (split_no_sep nl (header_text key ++ rest))
    by (rewrite all_chars_app, Hh; exact Hrest).
  cbn [fold_left].
  rewrite parse_line_header.
  rewrite <- (parse_line_header _ key "").
  replace (header_text key ++ "") with (header_text key)
    by (destruct key; reflexivity).
  reflexivity.
Qed.

(** X3 at a concrete input. *)
Lemma parse_review_header_remainder_witness :
  _parse_review ("intro" ++ NL ++ ("PR_SUMMARY:" ++ " Adds a parser") ++ NL
                 ++ "MAJOR_ISSUES:") =
  _parse_review ("intro" ++ NL ++ "PR_SUMMARY:" ++ NL ++ "MAJOR_ISSUES:").
Proof.
  apply (parse_review_header_remainder "intro" PR_SUMMARY " Adds a parser"
           "MAJOR_ISSUES:").
  reflexivity.
Defined.

(** ** Which keys the result holds, and what they hold *)

Lemma key_eqb_eq (a b : section_key) : key_eqb a b = true <-> a = b.
Proof. destruct a, b; cbn; split; congruence. Qed.

Lemma present_set (k k' : section_key) (v : value) (d : sections) :
  present k (sec_set k' v d) = key_eqb k k' || present k d.
Proof. unfold present. destruct k, k'; reflexivity. Qed.

Lemma present_commit (k : section_key) (st : parse_state) :
  present k (commit st) =
  match current_section st with
  | Some k' => key_eqb k k'
  | None => false
  end || present k (st_sections st).
Proof.
  unfold commit. destruct (current_section st); [apply present_set | reflexivity].
Qed.

Lemma parse_lines_present (k : section_key) (lines : list string) : forall st,
  present k (commit (fold_left parse_line lines st)) =
  present k (commit st) || opened k lines.
Proof.
  induction lines as [|raw rest IH]; intros st.
  - cbn. now rewrite orb_false_r.
  - cbn [fold_left opened existsb]. rewrite IH.
    fold (opened k rest). rewrite orb_assoc. f_equal.
    unfold parse_line. destruct (header_of (strip raw)) as [k'|].
    + rewrite (present_commit k (mk_state _ _ _)). cbn [current_section st_sections].
      apply orb_comm.
    + rewrite orb_false_r.
      destruct (current_section st) as [k'|] eqn:Hc; [|reflexivity].
      destruct (truthy (strip raw)); [|reflexivity].
      rewrite !present_commit. cbn [current_section st_sections].
      now rewrite Hc.
Qed.

Lemma present_parse_lists (k : section_key) (d : sections) :
  present k
    (fold_left parse_list [MAJOR_ISSUES; MINOR_ISSUES; TEST_SUGGESTIONS] d)
  = present k d.
Proof.
  unfold present. rewrite parse_lists_get.
  destruct k; try reflexivity; now destruct (sec_get _ d) as [[|]|].
Qed.

(** X4. A key is in the result exactly when some line of the text, once
    trimmed, begins with its header; a section that is opened and left
    empty is present all the same. *)
Theorem parse_review_key_present (review_text : string) (key : section_key) :
  sec_get key (_parse_review review_text) <> None <->
  exists raw, In raw (split nl review_text) /\
              header_of (strip raw) = Some key.
Proof.
  assert (H : present key (_parse_review review_text)
              = opened key (split nl review_text)).
  { unfold _parse_review. rewrite present_parse_lists, parse_lines_present.
    now destruct key. }
  unfold present in H. split.
  - intros Hget.
    destruct (sec_get key (_parse_review review_text)); [|congruence].
    symmetry in H. unfold opened in H. apply existsb_exists in H as (raw & Hin & Hk).
    exists raw. split; [exact Hin|].
    destruct (header_of (strip raw)) as [k|]; [|discriminate].
    apply key_eqb_eq in Hk. now subst.
  - intros (raw & Hin & Hk).
    assert (Ho : opened key (split nl review_text) = true).
    { unfold opened. apply existsb_exists. exists raw. split; [exact Hin|].
      rewrite Hk. now apply key_eqb_eq. }
    rewrite Ho in H.
    destruct (sec_get key (_parse_review review_text)); [discriminate | discriminate].
Qed.

Lemma sec_get_set (k k' : section_key) (v : value) (d : sections) :
  sec_get k (sec_set k' v d) = if key_eqb k k' then Some v else sec_get k d.
Proof. destruct k, k'; reflexivity. Qed.

Lemma commit_trimmed (st : parse_state) :
  trimmed_values (st_sections st) -> trimmed_values (commit st).
Proof.
  intros H. unfold commit. destruct (current_section st) as [k'|]; [|exact H].
  intros k text. rewrite sec_get_set. destruct (key_eqb k k').
  - intros [= <-]. apply strip_idem.
  - apply H.
Qed.

Lemma parse_lines_trimmed (lines : list string) : forall st,
  trimmed_values (st_sections st) ->
  trimmed_values (st_sections (fold_left parse_line lines st)).
Proof.
  induction lines as [|raw rest IH]; intros st H; [exact H|].
  cbn [fold_left]. apply IH. unfold parse_line.
  destruct (header_of (strip raw)).
  - cbn [st_sections]. now apply commit_trimmed.
  - destruct (current_section st); [|exact H].
    destruct (truthy (strip raw)); exact H.
Qed.

Lemma committed_trimmed (review_text : string) :
  trimmed_values (committed_sections review_text).
Proof.
  apply commit_trimmed, parse_lines_trimmed.
  intros key text. destruct key; discriminate.
Qed.

Lemma parse_items_trimmed (text : string) :
  Forall (fun item => strip item = item /\ all_chars not_nl item = true)
    (parse_items text).
Proof.
  unfold parse_items. apply Forall_map, Forall_forall. intros item Hin.
  apply filter_In in Hin as [Hin _]. split; [apply strip_idem|].
  unfold strip, strip_chars. apply all_chars_strip_by, all_chars_strip_by.
  exact (proj1 (Forall_forall _ _) (split_lines_no_sep nl text) item Hin).
Qed.

(** X5. The result is well typed and trimmed: a scalar key holds text
    that neither begins nor ends with whitespace, a list-valued key holds
    a list whose items are trimmed and lie on one line each. *)
Theorem parse_review_values (review_text : string) (key : section_key) :
  match sec_get key (_parse_review review_text) with
  | None => True
  | Some (Str text) => is_list_key key = false /\ strip text = text
  | Some (Items items) =>
      is_list_key key = true /\
      Forall (fun item => strip item = item /\ all_chars not_nl item = true)
        items
  end.
Proof.
  unfold _parse_review. fold (committed_sections review_text).
  rewrite parse_lists_get.
  pose proof (committed_only_text review_text key) as Honly.
  pose proof (committed_trimmed review_text key) as Htrim.
  destruct (sec_get key (committed_sections review_text)) as [[text|items]|].
  - destruct key; cbn [is_list_key];
      (split; [reflexivity|]);
      (apply parse_items_trimmed || now apply Htrim).
  - exfalso. now apply (Honly items).
  - now destruct key.
Qed.

(** ** Parsing a review written in the requested format *)

Lemma content_line_facts (line : string) :
  content_line line = true ->
  line <> "" /\ strip line = line /\ header_of line = None /\
  all_chars not_nl line = true.
Proof.
  unfold content_line.
  destruct (first_char line) as [f|] eqn:Hf; [|discriminate].
  destruct (last_char line) as [l|] eqn:Hl; [|discriminate].
  intros H. apply andb_true_iff in H as [H Hh].
  apply andb_true_iff in H as [H Hn].
  apply andb_true_iff in H as [Hsf Hsl].
  apply negb_true_iff in Hsf, Hsl, Hh.
  split; [now apply (first_char_some_not_empty _ f)|].
  split; [|split; [now apply header_of_none | exact Hn]].
  apply strip_by_id; [now rewrite Hf | now rewrite Hl].
Qed.

Lemma edge_char_false (c : ascii) :
  edge_char c = false -> in_chars "- " c = false /\ isspace c = false.
Proof.
  unfold edge_char. intros H. apply orb_false_iff in H as [Hs Hd].
  split; [|exact Hs]. cbn [in_chars].
  rewrite (Ascii.eqb_sym "-" c), Hd.
  destruct (Ascii.eqb_spec " " c) as [<-|]; [discriminate Hs | reflexivity].
Qed.

Lemma clean_text_facts (text : string) :
  clean_text text = true ->
  exists f l, first_char text = Some f /\ last_char text = Some l /\
              edge_char f = false /\ edge_char l = false /\
              all_chars not_nl text = true.
Proof.
  unfold clean_text.
  destruct (first_char text) as [f|]; [|discriminate].
  destruct (last_char text) as [l|]; [|discriminate].
  intros H. apply andb_true_iff in H as [H Hn].
  apply andb_true_iff in H as [Hf Hl]. apply negb_true_iff in Hf, Hl.
  now exists f, l.
Qed.

Lemma bullet_line_content (text : string) :
  clean_text text = true -> content_line (bullet_line text) = true.
Proof.
  intros H. destruct (clean_text_facts text H) as (f & l & Hf & Hl & Hef & Hel & Hn).
  unfold content_line, bullet_line.
  assert (Hne : text <> "") by now apply (first_char_some_not_empty _ f).
  change ("- " ++ text) with (String "-" (String " " text)).
  cbn [first_char].
  replace (last_char (String "-" (String " " text))) with (Some l).
  2:{ destruct text as [|c r]; [congruence|]. exact (eq_sym Hl). }
  destruct (edge_char_false l Hel) as [_ ->].
  cbn [all_chars]. rewrite Hn. reflexivity.
Qed.

Lemma clean_item_bullet_line (text : string) :
  clean_text text = true -> clean_item (bullet_line text) = text.
Proof.
  intros H. destruct (clean_text_facts text H) as (f & l & Hf & Hl & Hef & Hel & _).
  destruct (edge_char_false f Hef) as [Hdf Hsf].
  destruct (edge_char_false l Hel) as [Hdl Hsl].
  unfold clean_item, bullet_line, strip_chars, strip_by.
  change (lstrip_by (in_chars "- ") ("- " ++ text))
    with (lstrip_by (in_chars "- ") text).
  rewrite lstrip_by_id by now rewrite Hf.
  rewrite rstrip_by_id by now rewrite Hl.
  apply strip_by_id; [now rewrite Hf | now rewrite Hl].
Qed.

Lemma is_bullet_bullet_line (text : string) :
  clean_text text = true -> is_bullet (bullet_line text) = true.
Proof.
  intros H. unfold is_bullet.
  destruct (content_line_facts _ (bullet_line_content text H)) as (_ & -> & _).
  reflexivity.
Qed.

Lemma forallb_Forall {A} (p : A -> bool) (l : list A) :
  forallb p l = true -> Forall (fun x => p x = true) l.
Proof. intros H. apply Forall_forall. now apply forallb_forall. Qed.

(** The items of a section written as clean bullets are the bullets. *)
Lemma parse_items_bullets (items : list string) :
  forallb clean_text items = true ->
  parse_items (join NL (map bullet_line items)) = items.
Proof.
  intros H. apply forallb_Forall in H.
  destruct items as [|item items]; [reflexivity|].
  unfold parse_items. unfold NL. rewrite split_join.
  - fold is_bullet. fold clean_item.
    induction H as [|x xs Hx _ IH]; [reflexivity|].
    cbn [map filter]. rewrite (is_bullet_bullet_line x Hx). cbn [map].
    now rewrite (clean_item_bullet_line x Hx), IH.
  - discriminate.
  - apply Forall_map. apply Forall_forall. intros x Hin.
    pose proof (proj1 (Forall_forall _ _) H x Hin) as Hx.
    now destruct (content_line_facts _ (bullet_line_content x Hx)) as (_ & _ & _ & ?).
Qed.

(** Content lines met while a section is open are appended to it. *)
Lemma parse_lines_content (body : list string) : forall d key content,
  Forall (fun l => content_line l = true) body ->
  fold_left parse_line body (mk_state d (Some key) content) =
  mk_state d (Some key) (content ++ body).
Proof.
  induction body as [|line body IH]; intros d key content H.
  - now rewrite app_nil_r.
  - inversion H as [|? ? Hl Hb]; subst. cbn [fold_left].
    destruct (content_line_facts line Hl) as (Hne & Hs & Hh & _).
    unfold parse_line at 2. rewrite Hs, Hh. cbn [current_section].
    destruct line as [|c r]; [congruence|]. cbn [truthy st_sections current_content].
    rewrite IH by exact Hb. now rewrite <- app_assoc.
Qed.

Lemma parse_section (key : section_key) (body rest : list string)
  (st : parse_state) :
  Forall (fun l => content_line l = true) body ->
  fold_left parse_line (header_text key :: body ++ rest) st =
  fold_left parse_line rest (mk_state (commit st) (Some key) body).
Proof.
  intros H. cbn [fold_left]. rewrite fold_left_app.
  replace (header_text key) with (header_text key ++ "")
    by (destruct key; reflexivity).
  rewrite parse_line_header.
  now rewrite (parse_lines_content body _ key [] H).
Qed.

Lemma strip_join_content (body : list string) :
  Forall (fun l => content_line l = true) body ->
  strip (join NL body) = join NL body.
Proof.
  intros H. destruct body as [|line body]; [reflexivity|].
  assert (Hne : Forall (fun l => l <> "") (line :: body)).
  { apply Forall_forall. intros l Hin.
    now destruct (content_line_facts l (proj1 (Forall_forall _ _) H l Hin)). }
  apply strip_by_id.
  - rewrite first_char_join by now inversion Hne.
    inversion H as [|? ? Hl _]; subst. unfold content_line in Hl.
    destruct (first_char line) as [f|]; [|discriminate].
    destruct (last_char line); [|discriminate].
    cbn. apply andb_true_iff in Hl as [Hl _].
    apply andb_true_iff in Hl as [Hl _]. apply andb_true_iff in Hl as [Hl _].
    now apply negb_true_iff in Hl.
  - rewrite last_char_join by (discriminate || exact Hne).
    assert (Hin : In (List.last (line :: body) "") (line :: body)).
    { destruct (exists_last (l := line :: body)) as (l' & a & Heq);
        [discriminate|].
      rewrite Heq, last_last. apply in_or_app. right. now left. }
    pose proof (proj1 (Forall_forall _ _) H _ Hin) as Hl.
    unfold content_line in Hl.
    destruct (first_char (List.last (line :: body) "")); [|discriminate].
    destruct (last_char (List.last (line :: body) "")) as [l|]; [|discriminate].
    cbn. apply andb_true_iff in Hl as [Hl _].
    apply andb_true_iff in Hl as [Hl _]. apply andb_true_iff in Hl as [_ Hl].
    now apply negb_true_iff in Hl.
Qed.

Lemma bullets_content (items : list string) :
  forallb clean_text items = true ->
  Forall (fun l => content_line l = true) (map bullet_line items).
Proof.
  intros H. apply Forall_map, Forall_forall. intros x Hin.
  apply bullet_line_content.
  exact (proj1 (forallb_forall _ _) H x Hin).
Qed.

Lemma content_no_nl (body : list string) :
  Forall (fun l => content_line l = true) body ->
  Forall (fun l => all_chars (fun x => negb (Ascii.eqb x nl)) l = true) body.
Proof.
  intros H. apply Forall_forall. intros l Hin.
  now destruct (content_line_facts l (proj1 (Forall_forall _ _) H l Hin))
    as (_ & _ & _ & ?).
Qed.

(** The dict committed by the line loop for a review written in the
    requested format. *)
Lemma render_review_committed
  (summary_lines major minor tests overall_lines : list string) :
  forallb content_line summary_lines = true ->
  forallb clean_text major = true ->
  forallb clean_text minor = true ->
  forallb clean_text tests = true ->
  forallb content_line overall_lines = true ->
  committed_sections
    (render_review summary_lines major minor tests overall_lines) =
  mk_sections (Some (Str (join NL summary_lines)))
    (Some (Str (join NL (map bullet_line major))))
    (Some (Str (join NL (map bullet_line minor))))
    (Some (Str (join NL (map bullet_line tests))))
    (Some (Str (join NL overall_lines))).
Proof.
  intros Hs Hma Hmi Hte Ho.
  pose proof (forallb_Forall _ _ Hs) as Hs'.
  pose proof (forallb_Forall _ _ Ho) as Ho'.
  pose proof (bullets_content _ Hma) as Hma'.
  pose proof (bullets_content _ Hmi) as Hmi'.
  pose proof (bullets_content _ Hte) as Hte'.
  unfold committed_sections, render_review. unfold NL at 1.
  rewrite split_join.
  2:{ discriminate. }
  2:{ repeat (apply Forall_app; split);
        try (apply content_no_nl; assumption);
        repeat constructor. }
  cbn [app].
  rewrite (parse_section PR_SUMMARY) by exact Hs'.
  rewrite (parse_section MAJOR_ISSUES) by exact Hma'.
  rewrite (parse_section MINOR_ISSUES) by exact Hmi'.
  rewrite (parse_section TEST_SUGGESTIONS) by exact Hte'.
  rewrite <- (app_nil_r overall_lines) at 1.
  rewrite (parse_section OVERALL_ASSESSMENT) by exact Ho'.
  cbn [fold_left commit current_section st_sections current_content].
  rewrite !strip_join_content by assumption.
  reflexivity.
Qed.

(** X6. Round trip: a review written in the requested format, with clean
    lines under the two scalar headers and clean bullets under the three
    others, is parsed into exactly what was written. *)
Theorem parse_render_review
  (summary_lines major minor tests overall_lines : list string) :
  forallb content_line summary_lines = true ->
  forallb clean_text major = true ->
  forallb clean_text minor = true ->
  forallb clean_text tests = true ->
  forallb content_line overall_lines = true ->
  _parse_review (render_review summary_lines major minor tests overall_lines) =
  mk_sections (Some (Str (join NL summary_lines))) (Some (Items major))
    (Some (Items minor)) (Some (Items tests))
    (Some (Str (join NL overall_lines))).
Proof.
  intros Hs Hma Hmi Hte Ho. unfold _parse_review.
  fold (committed_sections
          (render_review summary_lines major minor tests overall_lines)).
  rewrite (render_review_committed _ _ _ _ _ Hs Hma Hmi Hte Ho).
  cbn [fold_left parse_list sec_get sec_set major_issues minor_issues
       test_suggestions].
  now rewrite !parse_items_bullets by assumption.
Qed.

(** X6 at a concrete input. *)
Lemma parse_render_review_witness :
  _parse_review
    (render_review ["Adds a parser."; "Touches two files."]
       ["unchecked index in loop"] [] ["test the empty input"; "test x-1"]
       ["Needs work"]) =
  mk_sections
    (Some (Str (join NL ["Adds a parser."; "Touches two files."])))
    (Some (Items ["unchecked index in loop"])) (Some (Items []))
    (Some (Items ["test the empty input"; "test x-1"]))
    (Some (Str "Needs work")).
Proof. apply parse_render_review; reflexivity. Defined.

(** ** Aggregation *)

Lemma collect_from (reviews : list Review.t) : forall acc,
  fold_left collect_review reviews acc =
  mk_collected
    (all_summaries acc ++ flat_map review_summary reviews)
    (all_major_issues acc ++ flat_map (review_items MAJOR_ISSUES) reviews)
    (all_minor_issues acc ++ flat_map (review_items MINOR_ISSUES) reviews)
    (all_test_suggestions acc
       ++ flat_map (review_items TEST_SUGGESTIONS) reviews)
    (all_assessments acc ++ flat_map review_assessment reviews).
Proof.
  induction reviews as [|review rest IH]; intros acc.
  - cbn. rewrite !app_nil_r. now destruct acc.
  - cbn [fold_left flat_map]. rewrite IH. unfold collect_review.
    cbn [all_summaries all_major_issues all_minor_issues all_test_suggestions
         all_assessments].
    unfold review_items, review_summary, review_assessment.
    destruct (truthy_text (sec_get PR_SUMMARY _));
      destruct (truthy_text (sec_get OVERALL_ASSESSMENT _));
      now rewrite <- ?app_assoc, ?app_nil_r.
Qed.

(** X7. Each list of the report holds what the reviews contribute, review
    after review in input order and, within a review, in the order of the
    parsed items; every item carries the path of its file in bold. *)
Theorem collect_in_review_order (reviews : list Review.t) :
  collect reviews =
  mk_collected
    (flat_map review_summary reviews)
    (flat_map (review_items MAJOR_ISSUES) reviews)
    (flat_map (review_items MINOR_ISSUES) reviews)
    (flat_map (review_items TEST_SUGGESTIONS) reviews)
    (flat_map review_assessment reviews).
Proof. unfold collect. now rewrite collect_from. Qed.

Lemma parse_headerless (review_text : string) :
  Forall (fun raw => begins_with_header (strip raw) = false)
    (split nl review_text) ->
  _parse_review review_text = empty_sections.
Proof.
  intros H. unfold _parse_review.
  now rewrite (parse_lines_no_header _ (mk_state empty_sections None [])
                 eq_refl H).
Qed.

Lemma headerless_contribution (review : Review.t) :
  _parse_review (Review.review review) = empty_sections ->
  review_summary review = [] /\ review_assessment review = [] /\
  forall key, review_items key review = [].
Proof.
  intros H. unfold review_summary, review_assessment, review_items.
  rewrite H. repeat split. now intros [].
Qed.

Lemma collect_without (before after : list Review.t) (review : Review.t) :
  _parse_review (Review.review review) = empty_sections ->
  collect (before ++ review :: after) = collect (before ++ after).
Proof.
  intros H. destruct (headerless_contribution review H) as (Hs & Ha & Hi).
  unfold collect. rewrite !collect_from, !flat_map_app. cbn [flat_map].
  now rewrite Hs, Ha, !Hi.
Qed.

(** X8. A review without a header line leaves no trace: the report is
    the one made without it. *)
Theorem aggregate_reviews_headerless
  (timestamp : string) (pr_data : PR.t)
  (before after : list Review.t) (review : Review.t) :
  Forall (fun raw => begins_with_header (strip raw) = false)
    (split nl (Review.review review)) ->
  aggregate_reviews timestamp (before ++ review :: after) pr_data =
  aggregate_reviews timestamp (before ++ after) pr_data.
Proof.
  intros H. unfold aggregate_reviews.
  now rewrite (collect_without before after review (parse_headerless _ H)).
Qed.

(** X8 at a concrete input. *)
Lemma aggregate_reviews_headerless_witness :
  aggregate_reviews "2024-05-01 10:00:00 UTC"
    ([Review.mk "a.py" "Python" ("MAJOR_ISSUES:" ++ NL ++ "- x")]
     ++ Review.mk "b.js" "JavaScript" "I cannot review this file."
     :: [Review.mk "c.go" "Go" ("MINOR_ISSUES:" ++ NL ++ "- y")]) sample_pr =
  aggregate_reviews "2024-05-01 10:00:00 UTC"
    ([Review.mk "a.py" "Python" ("MAJOR_ISSUES:" ++ NL ++ "- x")]
     ++ [Review.mk "c.go" "Go" ("MINOR_ISSUES:" ++ NL ++ "- y")]) sample_pr.
Proof.
  apply aggregate_reviews_headerless. vm_compute. repeat constructor.
Defined.

Lemma error_text_headerless (file_path e : string) :
  all_chars not_nl file_path = true -> all_chars not_nl e = true ->
  _parse_review (error_text file_path e) = empty_sections.
Proof.
  intros Hp He. apply parse_headerless. unfold error_text.
  rewrite split_no_sep.
  2:{ change not_nl with (fun x => negb (Ascii.eqb x nl)) in Hp, He.
      rewrite !all_chars_app, Hp, He. reflexivity. }
  constructor; [|constructor].
  change ("Error reviewing " ++ file_path ++ ": " ++ e)
    with ("Error" ++ (" reviewing " ++ file_path ++ ": " ++ e)).
  unfold strip, strip_by. rewrite lstrip_by_id by reflexivity.
  destruct (rstrip_by_app_keep isspace "Error"
              (" reviewing " ++ file_path ++ ": " ++ e)) as [r ->];
    [discriminate | reflexivity | reflexivity].
Qed.

(** X9. A chunk whose completion call failed disappears from the report:
    the error text put in its place (path and failure text on one line)
    holds no header, so the report is the one made from the other
    reviews. *)
Theorem aggregate_reviews_drops_failed
  (timestamp : string) (pr_data : PR.t)
  (before after : list Review.t) (file_path file_language e : string) :
  all_chars not_nl file_path = true -> all_chars not_nl e = true ->
  aggregate_reviews timestamp
    (before ++ Review.mk file_path file_language (error_text file_path e)
            :: after) pr_data =
  aggregate_reviews timestamp (before ++ after) pr_data.
Proof.
  intros Hp He. unfold aggregate_reviews.
  now rewrite (collect_without before after
                 (Review.mk file_path file_language (error_text file_path e))
                 (error_text_headerless file_path e Hp He)).
Qed.

(** X9 at a concrete input. *)
Lemma aggregate_reviews_drops_failed_witness :
  aggregate_reviews "2024-05-01 10:00:00 UTC"
    ([] ++ Review.mk "b.js" "JavaScript"
             (error_text "b.js" "Connection error.") :: []) sample_pr =
  aggregate_reviews "2024-05-01 10:00:00 UTC" ([] ++ []) sample_pr.
Proof. apply aggregate_reviews_drops_failed; reflexivity. Defined.

(** X10. Round trip through the report: a single review written in the
    requested format puts every bullet under the section of its header,
    prefixed with the path of the file, and its assessment under Overall
    Assessment. *)
Theorem aggregate_render_review
  (timestamp : string) (pr_data : PR.t) (file_path file_language : string)
  (summary_lines major minor tests overall_lines : list string) :
  forallb content_line summary_lines = true ->
  forallb clean_text major = true ->
  forallb clean_text minor = true ->
  forallb clean_text tests = true ->
  forallb content_line overall_lines = true ->
  aggregate_reviews timestamp
    [Review.mk file_path file_language
       (render_review summary_lines major minor tests overall_lines)] pr_data =
  join NL (report_parts timestamp pr_data
             (map (attributed file_path) major)
             (map (attributed file_path) minor)
             (map (attributed file_path) tests)
             match overall_lines with
             | [] => []
             | _ => [join NL overall_lines]
             end).
Proof.
  intros Hs Hma Hmi Hte Ho. unfold aggregate_reviews, _build_comment.
  rewrite comment_parts_report. unfold collect. rewrite collect_from.
  cbn [flat_map all_major_issues all_minor_issues all_test_suggestions
       all_assessments app].
  unfold review_items, review_assessment. cbn [Review.review Review.file_path].
  unfold _parse_review.
  fold (committed_sections
          (render_review summary_lines major minor tests overall_lines)).
  rewrite (render_review_committed _ _ _ _ _ Hs Hma Hmi Hte Ho).
  cbn [fold_left parse_list sec_get sec_set major_issues minor_issues
       test_suggestions overall_assessment].
  rewrite !parse_items_bullets by assumption.
  cbn [truthy_items truthy_text].
  rewrite !app_nil_r.
  destruct overall_lines as [|line rest]; [reflexivity|].
  assert (Hne : join NL (line :: rest) <> "").
  { apply join_not_empty. apply forallb_Forall in Ho.
    inversion Ho as [|? ? Hl _]; subst.
    now destruct (content_line_facts line Hl). }
  destruct (join NL (line :: rest)) eqn:Hj; [congruence | reflexivity].
Qed.

(** X10 at a concrete input. *)
Lemma aggregate_render_review_witness :
  aggregate_reviews "2024-05-01 10:00:00 UTC"
    [Review.mk "a.py" "Python"
       (render_review ["Adds a parser."] ["unchecked index"] []
          ["test the empty input"] ["Needs work"])] sample_pr =
  join NL (report_parts "2024-05-01 10:00:00 UTC" sample_pr
             ["- **a.py**: unchecked index"] []
             ["- **a.py**: test the empty input"] ["Needs work"]).
Proof. apply aggregate_render_review; reflexivity. Defined.

(** ** Skipping, chunking and splitting, further *)

(** X11. A file is skipped exactly when some pattern of the list matches
    its name, matches its whole path, or, with its trailing slashes and
    stars removed, matches one of its ancestor directories; so the order of
    the patterns is irrelevant and an empty list skips nothing. *)
Theorem should_skip_file_some_pattern
  (fnmatch : string -> string -> bool) (file_path : string)
  (skip_patterns : list string) :
  should_skip_file fnmatch file_path skip_patterns = true <->
  exists pattern,
    In pattern skip_patterns /\
    (fnmatch (PurePath.name file_path) pattern = true \/
     fnmatch file_path pattern = true \/
     exists parent,
       In parent (PurePath.parents file_path) /\
       fnmatch parent (ancestor_pattern pattern) = true).
Proof.
  induction skip_patterns as [|pattern rest IH]; cbn [should_skip_file].
  - split; [discriminate | intros (? & [] & _)].
  - destruct (fnmatch (PurePath.name file_path) pattern) eqn:Hn.
    { split; [|reflexivity]. intros _. exists pattern. split; [now left | auto]. }
    destruct (fnmatch file_path pattern) eqn:Hp.
    { split; [|reflexivity]. intros _. exists pattern. split; [now left | auto]. }
    destruct (existsb _ (PurePath.parents file_path)) eqn:Ha.
    { split; [|reflexivity]. intros _. exists pattern. split; [now left|].
      right. right. now apply existsb_exists in Ha. }
    rewrite IH. split.
    + intros (p & Hin & H). exists p. split; [now right | exact H].
    + intros (p & [<-|Hin] & H); [|now exists p].
      destruct H as [H|[H|H]]; [congruence | congruence |].
      apply existsb_exists in H. congruence.
Qed.

(** X12. Files are judged one by one: the chunks of a concatenation are
    the chunks of its parts, one after the other, and there are never
    more chunks than files. *)
Theorem chunk_pr_files_app
  (fnmatch : string -> string -> bool) (skip_patterns : list string)
  (files files' : list File.t) (pr_title pr_description : string) :
  chunk_pr_files fnmatch skip_patterns (files ++ files') pr_title
    pr_description =
  (chunk_pr_files fnmatch skip_patterns files pr_title pr_description
   ++ chunk_pr_files fnmatch skip_patterns files' pr_title pr_description)%list
  /\
  List.length
    (chunk_pr_files fnmatch skip_patterns files pr_title pr_description)
  <= List.length files.
Proof.
  unfold chunk_pr_files. rewrite !chunk_loop_filter. cbn [app]. split.
  - now rewrite filter_app, map_app.
  - rewrite length_map. apply filter_length_le.
Qed.

(** X13. Every chunk handed to the reviewer comes from a file of the
    input that no pattern skips and that has at most 500 changes; it
    carries that file's path, status, counts and patch, the patch is not
    empty, the language is the one detected from the path, and title and
    description are those of the change set. *)
Theorem chunk_pr_files_chunks
  (fnmatch : string -> string -> bool) (skip_patterns : list string)
  (files : list File.t) (pr_title pr_description : string) (chunk : Chunk.t) :
  In chunk
    (chunk_pr_files fnmatch skip_patterns files pr_title pr_description) ->
  Chunk.patch chunk <> "" /\
  Chunk.file_language chunk = get_file_language (Chunk.file_path chunk) /\
  Chunk.pr_title chunk = pr_title /\
  Chunk.pr_description chunk = pr_description /\
  should_skip_file fnmatch (Chunk.file_path chunk) skip_patterns = false /\
  exists file,
    In file files /\
    File.filename file = Chunk.file_path chunk /\
    File.status file = Chunk.file_status chunk /\
    File.additions file = Chunk.additions chunk /\
    File.deletions file = Chunk.deletions chunk /\
    File.patch file = Some (Chunk.patch chunk) /\
    (get_changes file <= 500)%Z.
Proof.
  unfold chunk_pr_files. rewrite chunk_loop_filter. cbn [app].
  intros Hin. apply in_map_iff in Hin as (file & <- & Hin).
  apply filter_In in Hin as [Hin Hr]. unfold reviewable in Hr.
  apply andb_true_iff in Hr as [Hr Hc]. apply andb_true_iff in Hr as [Hs Hp].
  apply negb_true_iff in Hs. apply Z.leb_le in Hc.
  destruct (File.patch file) as [patch|] eqn:Hpatch; [|discriminate].
  unfold chunk_of, make_chunk. rewrite Hpatch. cbn.
  repeat split; auto.
  - now destruct patch.
  - exists file. repeat split; auto.
Qed.

(** X13 at a concrete input. *)
Lemma chunk_pr_files_chunks_witness :
  Chunk.patch (chunk_of "T" "D" (List.hd (File.mk "" "" 0 0 None None "")
                                   sample_files)) <> "".
Proof.
  apply (chunk_pr_files_chunks fnmatch_plain ["*.min.js"; "dist/**"]
           sample_files "T" "D").
  vm_compute. now left.
Defined.

Lemma string_length_app (a b : string) :
  String.length (a ++ b) = String.length a + String.length b.
Proof. induction a; cbn; congruence. Qed.

(** X14. The estimate is the length in characters divided by four and
    rounded down; estimating two texts apart loses at most one token
    against estimating them joined, and never gains one. *)
Theorem estimate_tokens_app (a b : string) :
  (4 * estimate_tokens a <= Z.of_nat (String.length a)
   < 4 * estimate_tokens a + 4)%Z /\
  (estimate_tokens a + estimate_tokens b <= estimate_tokens (a ++ b)
   <= estimate_tokens a + estimate_tokens b + 1)%Z.
Proof.
  unfold estimate_tokens. rewrite string_length_app, Nat2Z.inj_add.
  pose proof (Z.div_mod (Z.of_nat (String.length a)) 4 ltac:(lia)).
  pose proof (Z.mod_pos_bound (Z.of_nat (String.length a)) 4 ltac:(lia)).
  pose proof (Z.div_mod (Z.of_nat (String.length b)) 4 ltac:(lia)).
  pose proof (Z.mod_pos_bound (Z.of_nat (String.length b)) 4 ltac:(lia)).
  pose proof (Z.div_mod (Z.of_nat (String.length a) + Z.of_nat (String.length b))
                4 ltac:(lia)).
  pose proof (Z.mod_pos_bound
                (Z.of_nat (String.length a) + Z.of_nat (String.length b)) 4
                ltac:(lia)).
  lia.
Qed.

Lemma concat_singleton {A} (groups : list (list A)) :
  List.length groups = 1 -> exists g, groups = [g] /\ List.concat groups = g.
Proof.
  destruct groups as [|g [|g' gs]]; try discriminate.
  intros _. exists g. split; [reflexivity|]. cbn. apply app_nil_r.
Qed.

(** X15. A patch in which no line after the first begins with the marker
    is never cut, however long it is and whatever the maximum; and the
    result is never the empty list. *)
Theorem split_large_patch_no_marker (patch : string) (max_lines : Z) :
  split_large_patch patch max_lines <> [] /\
  (count_markers (tl (split nl patch)) = 0 ->
   split_large_patch patch max_lines = [patch]).
Proof.
  destruct (Z.leb_spec (Z.of_nat (List.length (split nl patch))) max_lines)
    as [Hle|Hlt].
  - unfold split_large_patch. rewrite (proj2 (Z.leb_le _ _) Hle).
    split; [discriminate | reflexivity].
  - rewrite split_large_patch_above by exact Hlt.
    destruct (hunk_groups_spec (split nl patch) (split_not_nil nl patch))
      as (_ & Hc & Hlen).
    split.
    + destruct (hunk_groups (split nl patch)); [discriminate Hlen | discriminate].
    + intros H0. rewrite H0 in Hlen.
      destruct (concat_singleton _ Hlen) as (g & Heq & Hg).
      rewrite Hc in Hg. rewrite Heq, <- Hg. cbn [map]. unfold NL.
      now rewrite join_split.
Qed.

(** X15 at a concrete input. *)
Lemma split_large_patch_no_marker_witness :
  split_large_patch ("@@ -1,3 +1,3 @@" ++ NL ++ "+a" ++ NL ++ "+b" ++ NL ++ "-c")
    2 =
  ["@@ -1,3 +1,3 @@" ++ NL ++ "+a" ++ NL ++ "+b" ++ NL ++ "-c"].
Proof.
  apply (split_large_patch_no_marker
           ("@@ -1,3 +1,3 @@" ++ NL ++ "+a" ++ NL ++ "+b" ++ NL ++ "-c") 2).
  reflexivity.
Defined.

(** ** Reviewing, further *)



Section ReviewerMore.

Variable world : Type.
Variable completions_create :
  world -> string -> string -> outcome string * world.
Variable system_prompt_template : template.
Variable review_prompt_template : template.

Lemma review_loop_acc (project_info : Project.t) (chunks : list Chunk.t) :
  forall w acc,
    review_loop world completions_create system_prompt_template
      review_prompt_template w chunks project_info acc =
    match review_loop world completions_create system_prompt_template
            review_prompt_template w chunks project_info [] with
    | (Returns reviews, w') => (Returns (acc ++ reviews)%list, w')
    | (Raises e, w') => (Raises e, w')
    end.
Proof.
  induction chunks as [|chunk rest IH]; intros w acc; cbn [review_loop].
  - now rewrite app_nil_r.
  - destruct (review_chunk _ _ _ _ w chunk project_info) as [[text|e] w1];
      [|reflexivity].
    cbn [app]. rewrite (IH w1 (acc ++ _)%list). rewrite (IH w1 [_]).
    destruct (review_loop _ _ _ _ w1 rest project_info []) as [[reviews|e] w2];
      [|reflexivity].
    now rewrite <- app_assoc.
Qed.

Lemma review_all_chunks_app_aux (project_info : Project.t)
  (chunks chunks' : list Chunk.t) : forall w,
  review_all_chunks world completions_create system_prompt_template
    review_prompt_template w (chunks ++ chunks') project_info =
  match review_all_chunks world completions_create system_prompt_template
          review_prompt_template w chunks project_info with
  | (Returns reviews, w1) =>
      match review_all_chunks world completions_create system_prompt_template
              review_prompt_template w1 chunks' project_info with
      | (Returns reviews', w2) => (Returns (reviews ++ reviews')%list, w2)
      | (Raises e, w2) => (Raises e, w2)
      end
  | (Raises e, w1) => (Raises e, w1)
  end.
Proof.
  unfold review_all_chunks.
  induction chunks as [|chunk rest IH]; intros w.
  - cbn [app review_loop].
    now destruct (review_loop _ _ _ _ w chunks' project_info [])
      as [[reviews|e] w2].
  - cbn [app review_loop].
    destruct (review_chunk _ _ _ _ w chunk project_info) as [[text|e] w1];
      [|reflexivity].
    rewrite (review_loop_acc project_info (rest ++ chunks')).
    rewrite (review_loop_acc project_info rest). rewrite IH.
    destruct (review_loop _ _ _ _ w1 rest project_info []) as [[reviews|e] w2];
      [|reflexivity].
    destruct (review_loop _ _ _ _ w2 chunks' project_info [])
      as [[reviews'|e] w3]; reflexivity.
Qed.

End ReviewerMore.

(** X16. Reviewing a concatenation of chunk lists is reviewing the first
    list and then, from the state of the world it leaves, the second: the
    reviews are put end to end, and a failure of the first run is the
    failure of the whole. *)
Theorem review_all_chunks_app
  (world : Type)
  (completions_create : world -> string -> string -> outcome string * world)
  (system_prompt_template review_prompt_template : template)
  (project_info : Project.t) (chunks chunks' : list Chunk.t) (w : world) :
  review_all_chunks world completions_create system_prompt_template
    review_prompt_template w (chunks ++ chunks') project_info =
  match review_all_chunks world completions_create system_prompt_template
          review_prompt_template w chunks project_info with
  | (Returns reviews, w1) =>
      match review_all_chunks world completions_create system_prompt_template
              review_prompt_template w1 chunks' project_info with
      | (Returns reviews', w2) => (Returns (reviews ++ reviews')%list, w2)
      | (Raises e, w2) => (Raises e, w2)
      end
  | (Raises e, w1) => (Raises e, w1)
  end.
Proof. apply review_all_chunks_app_aux. Qed.



(** ** The pipeline *)

(** Case analysis on the next call whose result is examined. *)
Ltac split_match :=
  match goal with
  | |- context [match ?x with _ => _ end] =>
      lazymatch x with
      | context [match _ with _ => _ end] => fail
      | _ => destruct x eqn:?
      end
  end.

Ltac unfold_steps :=
  cbv beta iota zeta
    delta [main main_body prepare review_and_post status_of session_chunks
           session_files bind attempt attempt_value attempt_int exit ret
           Session.config Session.pr_number Session.api_key Session.base_url
           Session.model Session.temp Session.templates Session.pr_data
           Session.project_info Session.limit].

Section MainFacts.

Variable world : Type.
Variable fnmatch : string -> string -> bool.
Variable env : environ.
Variable read_config : world -> outcome config_file * world.
Variable github_init : world -> string -> string -> outcome unit * world.
Variable get_pull : world -> Z -> fetched Pull.t * world.
Variable get_files : world -> Pull.t -> fetched (list File.t) * world.
Variable repo_attributes : world -> fetched Repo.t * world.
Variable create_issue_comment :
  world -> Pull.t -> string -> fetched unit * world.
Variable temperature : Type.
Variable llm_temperature : outcome temperature.
Variable reviewer_init :
  world -> string -> option string -> outcome (template * template) * world.
Variable completions_create :
  string -> option string -> string -> temperature ->
  world -> string -> string -> outcome string * world.
Variable now : world -> string * world.

(** [main] is the preparation followed, when it succeeds, by the review
    and the posting. *)
Lemma main_after_prepare (w : world) :
  main world fnmatch env read_config github_init get_pull get_files
    repo_attributes create_issue_comment temperature llm_temperature
    reviewer_init completions_create now w =
  match prepare world env read_config github_init get_pull get_files
          repo_attributes temperature llm_temperature reviewer_init w with
  | (inr status, w') => (status, w')
  | (inl s, w') =>
      review_and_post world fnmatch get_pull create_issue_comment temperature
        completions_create now s w'
  end.
Proof.
  repeat (unfold_steps; first [reflexivity | split_match]).
Qed.

Lemma prepare_status (w w' : world) (status : Z) :
  prepare world env read_config github_init get_pull get_files
    repo_attributes temperature llm_temperature reviewer_init w
  = (inr status, w') ->
  status = 0%Z \/ status = 1%Z.
Proof.
  repeat (unfold_steps; first [discriminate | split_match]);
    unfold_steps; intros [= <- <-]; auto.
Qed.

Local Notation "'run_main'" :=
  (main world fnmatch env read_config github_init get_pull get_files
     repo_attributes create_issue_comment temperature llm_temperature
     reviewer_init completions_create now).
Local Notation "'run_prepare'" :=
  (prepare world env read_config github_init get_pull get_files
     repo_attributes temperature llm_temperature reviewer_init).
Local Notation "'post'" :=
  (post_review_comment world get_pull create_issue_comment).

(** X18. With reviewing disabled in the configuration the process ends
    with status 0 right after the configuration is read: no identifier
    is looked up and no collaborator is called. *)
Theorem main_disabled (w w1 : world) (file : config_file) :
  read_config w = (Returns file, w1) ->
  is_enabled (_load_config file) = false ->
  run_main w = (0%Z, w1).
Proof.
  intros Hread Hoff. unfold_steps. rewrite Hread. unfold_steps.
  now rewrite Hoff.
Qed.

(** X19. Without a pull request number (absent, not an integer, or zero)
    or without a repository name the process ends with status 1 before
    any call to the hosting service or to the completion endpoint. *)
Theorem main_missing_identifiers (w w1 : world) (file : config_file) :
  read_config w = (Returns file, w1) ->
  is_enabled (_load_config file) = true ->
  pr_number_of env = None \/ pr_number_of env = Some 0%Z \/
  get_default (env "REPO_NAME") "" = "" ->
  run_main w = (1%Z, w1).
Proof.
  intros Hread Hon Hid. unfold_steps. rewrite Hread. unfold_steps.
  rewrite Hon. unfold_steps.
  destruct Hid as [->|[->|Hrepo]]; unfold_steps; try reflexivity.
  destruct (pr_number_of env) as [n|]; unfold_steps; [|reflexivity].
  rewrite Hrepo. now rewrite orb_true_r.
Qed.

(** X20. When the pull request has more files than the limit, the only
    thing done after the preparation is the posting of the fixed notice,
    which names both numbers; no file is chunked, the completion endpoint
    is not called, and the status is 0 unless the posting fails. *)
Theorem main_too_large (w w' : world) (s : Session.t temperature) :
  run_prepare w = (inl s, w') ->
  (Session.limit s < Z.of_nat (List.length (session_files s)))%Z ->
  run_main w =
  status_of
    (post w' (Session.pr_number s)
       (too_large_notice (Z.of_nat (List.length (session_files s)))
          (Session.limit s))).
Proof.
  intros Hprep Hlt. rewrite main_after_prepare, Hprep.
  unfold review_and_post. now rewrite (proj2 (Z.ltb_lt _ _) Hlt).
Qed.

(** X21. When the number of files is within the limit and every file is
    skipped by a pattern, has no patch or has more than 500 changes, the
    process ends with status 0 after the preparation: nothing is reviewed
    and nothing is posted. *)
Theorem main_nothing_to_review (w w' : world) (s : Session.t temperature) :
  run_prepare w = (inl s, w') ->
  (Z.of_nat (List.length (session_files s)) <= Session.limit s)%Z ->
  forallb (fun file =>
             negb (reviewable fnmatch (skip_patterns (Session.config s)) file))
    (session_files s) = true ->
  run_main w = (0%Z, w').
Proof.
  intros Hprep Hle Hnone. rewrite main_after_prepare, Hprep.
  unfold review_and_post.
  rewrite (proj2 (Z.ltb_ge _ _) Hle).
  assert (Hfilter : filter (reviewable fnmatch
                              (skip_patterns (Session.config s)))
                      (session_files s) = []).
  { clear Hprep Hle.
    induction (session_files s) as [|file rest IH]; [reflexivity|].
    cbn [forallb filter] in *. apply andb_true_iff in Hnone as [Hf Hrest].
    apply negb_true_iff in Hf. rewrite Hf. now apply IH. }
  unfold session_chunks, chunk_pr_files. rewrite chunk_loop_filter.
  now rewrite Hfilter.
Qed.


(** X23. Whatever the environment, the configuration and the answers of
    the collaborators, the process ends with status 0 or 1. *)
Theorem main_exit_status (w : world) :
  let status :=
    fst (main world fnmatch env read_config github_init get_pull get_files
           repo_attributes create_issue_comment temperature llm_temperature
           reviewer_init completions_create now w) in
  status = 0%Z \/ status = 1%Z.
Proof.
  cbv zeta. rewrite main_after_prepare.
  destruct (run_prepare w) as [[s|status] w'] eqn:Hprep.
  - unfold review_and_post, status_of.
    repeat (first [split_match | progress cbn [fst]]); auto.
  - cbn [fst]. exact (prepare_status w w' status Hprep).
Qed.

End MainFacts.

(** X18 at a concrete input. *)
Lemma main_disabled_witness :
  logged_main (Document (Some (Config.mk (Some false) None None None))) "50"
    sample_files = (0%Z, ["read config"]).
Proof.
  unfold logged_main. eapply main_disabled; reflexivity.
Defined.

(** X19 at a concrete input. *)
Lemma main_missing_identifiers_witness :
  main (list string) fnmatch_plain (fun name => None)
    (fun w => (Returns FileNotFound, logged w "read config"))
    (fun w token repo => (Returns tt, logged w "get_repo"))
    (fun w n => (GithubException "404", logged w "get_pull"))
    (fun w pr => (Fetched [], logged w "get_files"))
    (fun w => (GithubException "404", logged w "repository"))
    (fun w pr body => (Fetched tt, logged w "comment"))
    unit (Returns tt)
    (fun w key url => (Raises "no prompts", logged w "read prompts"))
    (fun key url model temp w system_prompt review_prompt =>
       (Raises "down", logged w "completion"))
    (fun w => ("", w)) []
  = (1%Z, ["read config"]).
Proof.
  eapply main_missing_identifiers; [reflexivity | reflexivity |].
  right. left. reflexivity.
Defined.

(** X20 at a concrete input. *)
Lemma main_too_large_witness :
  logged_main FileNotFound "5" sample_files =
  (0%Z, ["read config"; "get_repo octo/demo"; "read prompts"; "get_pull";
         "get_files"; "repository"; "get_pull"; "comment"]).
Proof.
  unfold logged_main.
  erewrite main_too_large; [| lazy; reflexivity | vm_compute; reflexivity].
  reflexivity.
Defined.

(** X21 at a concrete input. *)
Lemma main_nothing_to_review_witness :
  logged_main FileNotFound "50"
    [File.mk "logo.png" "added" 0 0 (Some 0%Z) None "c3";
     File.mk "dist/bundle.js" "modified" 1 0 (Some 1%Z) (Some "@@ -1 +1 @@") "e5"]
  = (0%Z, ["read config"; "get_repo octo/demo"; "read prompts"; "get_pull";
           "get_files"; "repository"]).
Proof.
  unfold logged_main.
  erewrite main_nothing_to_review;
    [| lazy; reflexivity | vm_compute; discriminate | vm_compute; reflexivity].
  reflexivity.
Defined.


(** ** Configuration, repository metadata and languages *)

Lemma truthy_iff (s : string) : truthy s = true <-> s <> "".
Proof. destruct s; cbn; split; congruence. Qed.

(** X24. The secrets are never empty: the token is the value of
    [GITHUB_TOKEN] when it is set and not empty; the key is the value of
    [LLM_API_KEY] when that is set and not empty, otherwise the value of
    [OPENAI_API_KEY] when that is set and not empty; in every other case
    the getter raises. *)
Theorem secrets_not_empty (env : environ) :
  (forall token,
     github_token env = Returns token <->
     env "GITHUB_TOKEN" = Some token /\ token <> "") /\
  (forall key,
     llm_api_key env = Returns key <->
     key <> "" /\
     (env "LLM_API_KEY" = Some key \/
      (env "LLM_API_KEY" = None \/ env "LLM_API_KEY" = Some "") /\
      env "OPENAI_API_KEY" = Some key)).
Proof.
  split.
  - intros token. unfold github_token.
    destruct (env "GITHUB_TOKEN") as [t|].
    + destruct t as [|c r]; cbn [truthy].
      * split; [discriminate | intros [[= <-] H]; congruence].
      * split; [intros [= <-]; split; [reflexivity | discriminate]
               | now intros [[= <-] _]].
    + split; [discriminate | now intros [? _]].
  - intros key. unfold llm_api_key, or_else.
    destruct (env "LLM_API_KEY") as [[|c r]|]; cbn [truthy].
    + destruct (env "OPENAI_API_KEY") as [[|c r]|]; cbn [truthy]; split;
        try discriminate;
        try (intros [Hne [[= <-]|[_ [= <-]]]]; congruence);
        try (intros [Hne [H|[_ H]]]; congruence).
      intros [= <-]. split; [discriminate | right; auto].
    + split.
      * intros [= <-]. split; [discriminate | now left].
      * intros [_ [[= <-]|[[H|H] _]]]; [reflexivity | discriminate | discriminate].
    + destruct (env "OPENAI_API_KEY") as [[|c r]|]; cbn [truthy]; split;
        try discriminate;
        try (intros [Hne [H|[_ [= <-]]]]; congruence);
        try (intros [Hne [H|[_ H]]]; congruence).
      intros [= <-]. split; [discriminate | right; auto].
Qed.

(** X25. [get_project_info] answers a [GithubException] with the fall-back
    metadata instead of raising, and whatever it returns has a name, a
    language that is not empty and no framework, so that the framework
    placeholder of the system prompt always reads ["Unknown"]. *)
Theorem get_project_info_metadata
  (world : Type) (repo_attributes : world -> fetched Repo.t * world)
  (w : world) :
  (forall e w1,
     repo_attributes w = (GithubException e, w1) ->
     get_project_info world repo_attributes w =
     (Returns (Project.mk (Some "Unknown") (Some "Unknown") None), w1)) /\
  (forall info w1,
     get_project_info world repo_attributes w = (Returns info, w1) ->
     Project.framework info = None /\
     dict_get "framework" (system_kwargs info) = Some "Unknown" /\
     exists name language,
       Project.name info = Some name /\
       Project.language info = Some language /\ language <> "").
Proof.
  unfold get_project_info. split.
  - intros e w1 ->. reflexivity.
  - intros info w1.
    destruct (repo_attributes w) as [[repo|e|e] w2]; intros [= <- <-];
      cbn; try discriminate.
    + repeat split. exists (Repo.name repo).
      exists (or_default (Repo.language repo) "Unknown").
      repeat split. unfold or_default.
      destruct (Repo.language repo) as [[|c r]|]; cbn; discriminate.
    + repeat split. exists "Unknown", "Unknown". repeat split. discriminate.
Qed.

(** X25 at a concrete input. *)
Lemma get_project_info_metadata_witness :
  get_project_info (list string)
    (fun w => (GithubException "502", logged w "repository")) []
  = (Returns (Project.mk (Some "Unknown") (Some "Unknown") None),
     ["repository"]).
Proof.
  eapply (proj1 (get_project_info_metadata (list string)
                   (fun w => (GithubException "502", logged w "repository"))
                   [])).
  reflexivity.
Defined.

Lemma dict_get_in (key : string) (d : list (string * string)) (v : string) :
  dict_get key d = Some v -> In v (map snd d).
Proof.
  induction d as [|[k x] rest IH]; cbn; [discriminate|].
  destruct (String.eqb k key); [intros [= ->]; now left | auto].
Qed.

(** X26. The language tag is never empty: it is ["Unknown"] or one of the
    names of the table. *)
Theorem get_file_language_range (file_path : string) :
  get_file_language file_path <> "" /\
  (get_file_language file_path = "Unknown" \/
   In (get_file_language file_path) (map snd extension_map)).
Proof.
  unfold get_file_language.
  destruct (dict_get (lower (PurePath.suffix file_path)) extension_map)
    as [language|] eqn:Hget.
  - apply dict_get_in in Hget. split; [|now right].
    assert (Hall : forallb truthy (map snd extension_map) = true)
      by reflexivity.
    apply truthy_iff. exact (proj1 (forallb_forall _ _) Hall _ Hget).
  - split; [discriminate | now left].
Qed.
